(** * FindRivals backend: identifier allocation, haversine distance,
      nearby-team discovery and team registration

    A shallow embedding of [src/main.py] and [src/schemas.py].

    Conventions of the embedding.
    - In the modules [Geo] and [Proximity], Python [float] values are
      idealised as real numbers ([R]); the functions of the [math] module
      are the real functions of the same name, and they keep the domain
      errors ([ValueError]) that [math.sqrt] and [math.asin] raise.  The
      module [Doubles] has the same lines over IEEE 754 binary64, where
      rounding can take the argument of [math.asin] out of its domain.
    - A raised exception is a value of [exn]; code that can raise returns
      an [outcome].
    - The document store is explicit state: [option Db] is the module
      level name [db] of the source, [None] when it was never
      initialised and otherwise the handle of the driver (a pymongo
      [Database]).  The handle can be subscripted and compared with
      [None], but it has no truth value: [bool] of it raises
      [NotImplementedError]. *)

From Stdlib Require Import Floats.
From Stdlib Require Import Reals Lra Lia ZArith String List DecimalString.
From Stdlib Require Import Sorted Permutation.
From stdpp Require Import gmap strings.

Open Scope string_scope.

(** ** Exceptions and fallible results *)

Inductive exn : Type :=
| ValueError                                   (* math domain error *)
| TypeError                                    (* subscripting [None] *)
| StorageError                                 (* the driver failed *)
| ValidationError                              (* pydantic model validation *)
| NotImplementedError                          (* truth value of a Database handle *)
| OverflowError                                (* float result out of range *)
| RequestValidationError                       (* FastAPI, status 422 *)
| HTTPException (status_code : nat) (detail : string).

Inductive outcome (A : Type) : Type :=
| Ok (a : A)
| Raise (e : exn).
Arguments Ok {A} a.
Arguments Raise {A} e.

Definition obind {A B : Type} (m : outcome A) (k : A -> outcome B) : outcome B :=
  match m with
  | Ok a => k a
  | Raise e => Raise e
  end.

Notation "'let!' x ':=' m 'in' k" := (obind m (fun x => k))
  (at level 10, x name, m at level 100, k at level 200).

(** [try: m except Exception: h] *)
Definition try_except {A : Type} (m : outcome A) (h : A) : A :=
  match m with
  | Ok a => a
  | Raise _ => h
  end.

(** ** Data model ([src/schemas.py]) *)

Definition Sport : list string := ["cricket"; "football"; "kabaddi"; "shuttle"; "tennis"].
Definition TimeSlot : list string := ["morning"; "afternoon"; "evening"].
Definition ContactPref : list string := ["call"; "text"].

Record Team : Type := mkTeam {
  team_name : string;
  sport : string;
  players : list string;
  location_name : option string;
  latitude : option R;
  longitude : option R;
  contact_preference : string;
  contact_number : string;
  availability : list string;
  team_id : string
}.

(** A document of the ["team"] collection: the fields of [Team] and the
    storage-internal [_id] (already a string here; [str] is the identity
    on it). *)
Record StoredTeam : Type := mkStored {
  _id : option string;
  doc : Team
}.

(** The store behind [db]: the ["team"] collection in insertion order,
    and whether the server answers. *)
Record Db : Type := mkDb {
  team_collection : list StoredTeam;
  reachable : bool
}.

(** ** Identifier allocator *)

Module Allocator.

Definition SPORT_PREFIX : gmap string string :=
  <["cricket" := "CRK"]> (
  <["football" := "FTB"]> (
  <["kabaddi" := "KBD"]> (
  <["shuttle" := "SHT"]> (
  <["tennis" := "TNS"]> ∅)))).

(** [d.get(k, dflt)] *)
Definition dict_get (d : gmap string string) (k dflt : string) : string :=
  default dflt (d !! k).

(** [str(n)] for a non-negative integer *)
Definition str_int (n : nat) : string :=
  NilEmpty.string_of_uint (Nat.to_uint n).

(** [db["team"].count_documents({"sport": sport})] *)
Definition count_documents (d : Db) (s : string) : outcome nat :=
  if reachable d
  then Ok (length (filter (fun t => String.eqb (sport (doc t)) s) (team_collection d)))
  else Raise StorageError.

(** [bool(db)], the test of [... if db else ...]: [None] is false, and
    the handle of the driver does not implement truth value testing. *)
Definition bool_db (db : option Db) : outcome bool :=
  match db with
  | None => Ok false
  | Some _ => Raise NotImplementedError
  end.

Definition generate_team_id (db : option Db) (sport : string) : string :=
  let prefix := dict_get SPORT_PREFIX sport "TMP" in
  (* Use count of existing teams for this sport + random suffix *)
  let count :=
    try_except
      (let! b := bool_db db in
       match b, db with
       | true, Some d => count_documents d sport
       | _, _ => Ok 0
       end)
      0 in
  let suffix := 100 + count in
  prefix ++ "-" ++ str_int suffix.

(** The prefix table of the specification, written as a function. *)
Definition spec_prefix (sport : string) : string :=
  if String.eqb sport "cricket" then "CRK"
  else if String.eqb sport "football" then "FTB"
  else if String.eqb sport "kabaddi" then "KBD"
  else if String.eqb sport "shuttle" then "SHT"
  else if String.eqb sport "tennis" then "TNS"
  else "TMP".

(** Stores used in the examples. *)
Definition cricket_team (k : nat) : StoredTeam :=
  mkStored (Some (str_int k))
    (mkTeam "XI" "cricket" [] None None None "call" "100" [] ("CRK-" ++ str_int (100 + k))).

Definition db_29_cricket : Db := mkDb (map cricket_team (seq 0 29)) true.
Definition db_empty : Db := mkDb [] true.
Definition db_down : Db := mkDb (map cricket_team (seq 0 29)) false.

End Allocator.

(** ** Great-circle distance *)

Module Geo.
Open Scope R_scope.

(** [math.radians] *)
Definition radians (x : R) : R := x * (PI / 180).

(** [math.sqrt]: a negative argument is a domain error. *)
Definition math_sqrt (x : R) : outcome R :=
  if Rlt_dec x 0 then Raise ValueError else Ok (sqrt x).

(** [math.asin]: an argument outside [-1, 1] is a domain error. *)
Definition math_asin (x : R) : outcome R :=
  if Rlt_dec x (-1) then Raise ValueError
  else if Rlt_dec 1 x then Raise ValueError
  else Ok (asin x).

Definition haversine (lat1 lon1 lat2 lon2 : R) : outcome R :=
  (* distance in km; [R0] is the source's [R = 6371.0] *)
  let R0 := 6371 in
  let dlat := radians (lat2 - lat1) in
  let dlon := radians (lon2 - lon1) in
  let a := sin (dlat / 2) ^ 2
           + cos (radians lat1) * cos (radians lat2) * sin (dlon / 2) ^ 2 in
  let! s := math_sqrt a in
  let! t := math_asin s in
  let c := 2 * t in
  Ok (R0 * c).

(** The quantity [a] and the distance as the specification writes them. *)
Definition spec_a (lat1 lon1 lat2 lon2 : R) : R :=
  let dlat := radians (lat2 - lat1) in
  let dlon := radians (lon2 - lon1) in
  sin (dlat / 2) ^ 2 + cos (radians lat1) * cos (radians lat2) * sin (dlon / 2) ^ 2.

Definition spec_distance (lat1 lon1 lat2 lon2 : R) : R :=
  2 * 6371 * asin (sqrt (spec_a lat1 lon1 lat2 lon2)).

(** Round half to even, to an integer. *)
Definition round_half_even (x : R) : Z :=
  let n := Int_part x in
  let f := x - IZR n in
  if Rlt_dec f (1 / 2) then n
  else if Rlt_dec (1 / 2) f then (n + 1)%Z
  else if Z.even n then n else (n + 1)%Z.

(** [round(x, ndigits)] *)
Definition py_round (x : R) (ndigits : nat) : R :=
  IZR (round_half_even (x * 10 ^ ndigits)) / 10 ^ ndigits.

End Geo.

(** ** Nearby opponents *)

Module Proximity.
Import Geo.
Open Scope R_scope.
Open Scope list_scope.

(** An element of the response of [/nearby]: the stored fields, the
    string [id] that replaces [_id], and [distance_km] when it was set. *)
Record NearbyItem : Type := mkItem {
  id : string;
  item : Team;
  distance_km : option R
}.

(** [t["id"] = str(t.pop("_id", ""))] *)
Definition stringify_id (t : StoredTeam) : NearbyItem :=
  mkItem (default "" (_id t)) (doc t) None.

(** [t["distance_km"] = d] *)
Definition set_distance_km (x : NearbyItem) (d : R) : NearbyItem :=
  mkItem (id x) (item x) (Some d).

(** One iteration of the loop over [teams]; [result] is the list built
    so far. *)
Definition nearby_step (center_lat center_lon : option R) (range_km : R)
    (result : list NearbyItem) (t0 : StoredTeam) : list NearbyItem :=
  let t := stringify_id t0 in
  let lat := latitude (item t) in
  let lon := longitude (item t) in
  match center_lat, center_lon, lat, lon with
  | Some clat, Some clon, Some la, Some lo =>
      try_except
        (let! dist := haversine clat clon la lo in
         if Rle_dec dist range_km
         then Ok (result ++ [set_distance_km t (py_round dist 2)])
         else Ok result)
        (result ++ [t])
  | _, _, _, _ =>
      (* if coordinates not provided, include all *)
      result ++ [t]
  end.

(** [x.get("distance_km", 0)] *)
Definition sort_key (x : NearbyItem) : R := default 0 (distance_km x).

(** [list.sort(key=...)]: the stable ascending sort. *)
Fixpoint insert_by {A : Type} (key : A -> R) (x : A) (l : list A) : list A :=
  match l with
  | [] => [x]
  | y :: l' => if Rle_dec (key x) (key y) then x :: y :: l' else y :: insert_by key x l'
  end.

Fixpoint list_sort {A : Type} (key : A -> R) (l : list A) : list A :=
  match l with
  | [] => []
  | x :: l' => insert_by key x (list_sort key l')
  end.

(** The body of [nearby_teams] after the documents were read: the loop
    and the final sort. *)
Definition proximity_engine (teams : list StoredTeam)
    (center_lat center_lon : option R) (range_km : R) : list NearbyItem :=
  let result := fold_left (nearby_step center_lat center_lon range_km) teams [] in
  list_sort sort_key result.

(** [range_km: float = Query(10, ge=1, le=100)]: the value the endpoint
    receives for a request that leaves the parameter out ([None]) or
    supplies a number. *)
Definition Query_range_km (supplied : option R) : outcome R :=
  match supplied with
  | None => Ok 10
  | Some r =>
      if Rle_dec 1 r
      then if Rle_dec r 100 then Ok r else Raise RequestValidationError
      else Raise RequestValidationError
  end.

(** Modelled from the spec: [get_documents] of the [database] module,
    which is not among the sources; [find(collectionName, filter)] returns
    the documents that match the filter exactly, and a storage failure
    propagates.  The filter is [{"sport": s}] ([Some s]) or [{}]. *)
Definition get_documents (db : option Db) (q : option string) : outcome (list StoredTeam) :=
  match db with
  | None => Raise StorageError
  | Some d =>
      if reachable d
      then Ok (match q with
               | Some s => filter (fun t => String.eqb (sport (doc t)) s) (team_collection d)
               | None => team_collection d
               end)
      else Raise StorageError
  end.

(** [{"sport": sport} if sport else {}] *)
Definition sport_query (sport : option string) : option string :=
  match sport with
  | Some s => if String.eqb s "" then None else Some s
  | None => None
  end.

Definition nearby_teams (db : option Db) (sport : option string)
    (center_lat center_lon : option R) (range_km : option R) : outcome (list NearbyItem) :=
  let! range_km := Query_range_km range_km in
  let q := sport_query sport in
  let! teams := get_documents db q in
  Ok (proximity_engine teams center_lat center_lon range_km).

(** What one team contributes to [result]. *)
Definition visit (center_lat center_lon : option R) (range_km : R)
    (t0 : StoredTeam) : list NearbyItem :=
  nearby_step center_lat center_lon range_km [] t0.

(** An element of the response stands for a stored team. *)
Definition represents (x : NearbyItem) (t : StoredTeam) : Prop :=
  id x = default "" (_id t) /\ item x = doc t.

(** The haversine distance from the centre to the location recorded in an
    element of the response. *)
Definition true_distance (clat clon : R) (x : NearbyItem) : option R :=
  match latitude (item x), longitude (item x) with
  | Some la, Some lo => Some (spec_distance clat clon la lo)
  | _, _ => None
  end.

(** The ranking the specification asks for: among the annotated elements,
    an earlier one is never farther than a later one, by the haversine
    distance itself. *)
Definition ranked_by_unrounded (clat clon : R) (out : list NearbyItem) : Prop :=
  forall (i j : nat) (u v : NearbyItem) (du dv : R),
    (i < j)%nat ->
    out !! i = Some u -> out !! j = Some v ->
    is_Some (distance_km u) -> is_Some (distance_km v) ->
    true_distance clat clon u = Some du ->
    true_distance clat clon v = Some dv ->
    du <= dv.

(** Every occurrence of [u] comes before every occurrence of [v]. *)
Definition precedes (out : list NearbyItem) (u v : NearbyItem) : Prop :=
  forall i j : nat, out !! i = Some u -> out !! j = Some v -> (i < j)%nat.

(** The order of the sort keys. *)
Definition key_le {A : Type} (key : A -> R) (x y : A) : Prop := key x <= key y.

(** The ordering the specification describes for elements without a
    distance: each comes before every annotated element whose haversine
    distance is positive. *)
Definition unlocated_first (clat clon : R) (out : list NearbyItem) : Prop :=
  forall (u v : NearbyItem) (dv : R),
    distance_km u = None ->
    is_Some (distance_km v) ->
    true_distance clat clon v = Some dv -> 0 < dv ->
    precedes out u v.

(** Teams used in the examples. *)
Definition team_at (name : string) (lat lon : option R) : StoredTeam :=
  mkStored (Some name)
    (mkTeam name "cricket" [] None lat lon "call" "100" [] "CRK-100").

Definition T1 : StoredTeam := team_at "T1" (Some 0) (Some 0).
Definition T2 : StoredTeam := team_at "T2" (Some 0) (Some 1).
Definition T3 : StoredTeam := team_at "T3" None None.

Definition near_a : StoredTeam := team_at "A" (Some 0) (Some (2 / 100000)).
Definition near_b : StoredTeam := team_at "B" (Some 0) (Some (1 / 100000)).

Definition shown (t : StoredTeam) (d : option R) : NearbyItem :=
  mkItem (default "" (_id t)) (doc t) d.

End Proximity.

(** ** Team registration *)

Module TeamCreate.
Record t : Type := mk {
  team_name : string;
  sport : string;
  players : list string;
  location_name : option string;
  latitude : option R;
  longitude : option R;
  contact_preference : string;
  contact_number : string;
  availability : list string
}.
End TeamCreate.

Module Registration.
Import Allocator.
Open Scope list_scope.

Definition literal (allowed : list string) (s : string) : bool :=
  existsb (String.eqb s) allowed.

(** [Team(...)]: the constructor validates the fields typed with the
    literals [Sport], [ContactPref] and [TimeSlot]. *)
Definition Team_validate (x : Team) : outcome Team :=
  if literal Sport (sport x)
     && literal ContactPref (contact_preference x)
     && forallb (literal TimeSlot) (availability x)
  then Ok x
  else Raise ValidationError.

(** The filter [{"players": {"$in": names}}]: some element of the
    document's [players] array is one of [names]. *)
Definition players_in (names : list string) (t : StoredTeam) : bool :=
  existsb (fun p => existsb (String.eqb p) names) (players (doc t)).

(** [db["team"].find_one({"players": {"$in": names}})] *)
Definition find_one_players_in (db : option Db) (names : list string)
  : outcome (option StoredTeam) :=
  match db with
  | None => Raise TypeError
  | Some d =>
      if reachable d then Ok (List.find (players_in names) (team_collection d))
      else Raise StorageError
  end.

(** Modelled from the spec: [create_document] of the [database] module,
    which is not among the sources; [insert(collectionName, document)]
    stores the document and returns the generated identifier, and a
    storage failure propagates.  [oid] is the identifier the store
    generates for this insertion. *)
Definition create_document (db : option Db) (oid : string) (x : Team)
  : outcome string * option Db :=
  match db with
  | None => (Raise StorageError, None)
  | Some d =>
      if reachable d
      then (Ok oid, Some (mkDb (team_collection d ++ [mkStored (Some oid) x]) true))
      else (Raise StorageError, Some d)
  end.

Record RegisterResponse : Type := mkResponse {
  ok : bool;
  resp_team_id : string;
  resp_id : string
}.

Definition players_taken : exn :=
  HTTPException 400 "One or more players already belong to another team".

(** The state is the store before and after the request. *)
Definition register_team (oid : string) (payload : TeamCreate.t) (db : option Db)
  : outcome RegisterResponse * option Db :=
  (* Ensure players unique across teams (soft check by name) *)
  let check :=
    match TeamCreate.players payload with
    | [] => Ok tt
    | _ :: _ =>
        let! existing := find_one_players_in db (TeamCreate.players payload) in
        match existing with
        | Some _ => Raise players_taken
        | None => Ok tt
        end
    end in
  match check with
  | Raise e => (Raise e, db)
  | Ok _ =>
      let team_id := generate_team_id db (TeamCreate.sport payload) in
      let team :=
        Team_validate
          (mkTeam (TeamCreate.team_name payload)
                  (TeamCreate.sport payload)
                  (TeamCreate.players payload)
                  (TeamCreate.location_name payload)
                  (TeamCreate.latitude payload)
                  (TeamCreate.longitude payload)
                  (TeamCreate.contact_preference payload)
                  (TeamCreate.contact_number payload)
                  (TeamCreate.availability payload)
                  team_id) in
      match team with
      | Raise e => (Raise e, db)
      | Ok team =>
          match create_document db oid team with
          | (Raise e, db') => (Raise e, db')
          | (Ok inserted_id, db') => (Ok (mkResponse true team_id inserted_id), db')
          end
      end
  end.

(** Some name of the payload is a player of a stored team. *)
Definition player_conflict (payload : TeamCreate.t) (d : Db) : Prop :=
  exists (t : StoredTeam) (p : string),
    In t (team_collection d) /\ In p (players (doc t)) /\ In p (TeamCreate.players payload).

(** The payload passes the validation of [Team]. *)
Definition schema_valid (payload : TeamCreate.t) : Prop :=
  In (TeamCreate.sport payload) Sport
  /\ In (TeamCreate.contact_preference payload) ContactPref
  /\ (forall a, In a (TeamCreate.availability payload) -> In a TimeSlot).

(** The document [register_team] builds for a payload. *)
Definition team_of (payload : TeamCreate.t) (team_id : string) : Team :=
  mkTeam (TeamCreate.team_name payload) (TeamCreate.sport payload)
         (TeamCreate.players payload) (TeamCreate.location_name payload)
         (TeamCreate.latitude payload) (TeamCreate.longitude payload)
         (TeamCreate.contact_preference payload) (TeamCreate.contact_number payload)
         (TeamCreate.availability payload) team_id.

(** What C10 promises when no player is taken: an identifier is minted
    and the team is inserted. *)
Definition registered (oid : string) (payload : TeamCreate.t) (d : Db) : Prop :=
  let team_id := generate_team_id (Some d) (TeamCreate.sport payload) in
  register_team oid payload (Some d) =
  (Ok (mkResponse true team_id oid),
   Some (mkDb (team_collection d ++ [mkStored (Some oid) (team_of payload team_id)]) true)).

Definition payload_unknown_sport : TeamCreate.t :=
  TeamCreate.mk "Rovers" "unknownsport" [] None None None "call" "100" [].

Definition payload_cricket : TeamCreate.t :=
  TeamCreate.mk "Rovers" "cricket" ["asha"; "ravi"] None None None "call" "100" ["morning"].

Definition db_with_asha : Db :=
  mkDb [mkStored (Some "a1")
          (mkTeam "XI" "cricket" ["asha"] None None None "text" "200" [] "CRK-100")] true.

End Registration.

(** ** Ties of the sort *)

Module Ties.
Open Scope R_scope.

(** The sort key of [x] is [k]. *)
Definition tied_at {A : Type} (key : A -> R) (k : R) (x : A) : bool :=
  if Req_dec_T (key x) k then true else false.

End Ties.

(** ** Team listing, lookup and removal *)

Module Teams.
Import Proximity.
Open Scope list_scope.

(** The filter [{"team_id": tid}] *)
Definition has_team_id (tid : string) (t : StoredTeam) : bool :=
  String.eqb (team_id (doc t)) tid.

(** [db["team"].find_one({"team_id": tid})] *)
Definition find_one_team_id (db : option Db) (tid : string) : outcome (option StoredTeam) :=
  match db with
  | None => Raise TypeError
  | Some d =>
      if reachable d then Ok (List.find (has_team_id tid) (team_collection d))
      else Raise StorageError
  end.

Definition team_not_found : exn := HTTPException 404 "Team not found".

Definition list_teams (db : option Db) (sport : option string) : outcome (list NearbyItem) :=
  let q := sport_query sport in
  let! items := get_documents db q in
  (* stringify _id for frontend *)
  Ok (map stringify_id items).

Definition get_team (db : option Db) (team_id : string) : outcome NearbyItem :=
  let! doc := find_one_team_id db team_id in
  match doc with
  | None => Raise team_not_found
  | Some doc => Ok (stringify_id doc)
  end.

(** [collection.delete_one(filter)]: the collection without its first
    match, and [deleted_count]. *)
Fixpoint delete_one {A : Type} (p : A -> bool) (l : list A) : list A * nat :=
  match l with
  | [] => ([], 0%nat)
  | x :: l' =>
      if p x then (l', 1%nat)
      else let (l'', n) := delete_one p l' in (x :: l'', n)
  end.

(** The response is the value of ["deleted"]. *)
Definition admin_delete_team (db : option Db) (team_id : string)
  : outcome bool * option Db :=
  match db with
  | None => (Raise TypeError, None)
  | Some d =>
      if reachable d
      then let (l, deleted_count) := delete_one (has_team_id team_id) (team_collection d) in
           (Ok (Nat.eqb deleted_count 1), Some (mkDb l true))
      else (Raise StorageError, Some d)
  end.

(** No player name is on the roster of two stored teams. *)
Inductive rosters_disjoint : list StoredTeam -> Prop :=
| rosters_nil : rosters_disjoint []
| rosters_cons (t : StoredTeam) (l : list StoredTeam) :
    (forall u p, In u l -> In p (players (doc t)) -> ~ In p (players (doc u))) ->
    rosters_disjoint l ->
    rosters_disjoint (t :: l).

(** The number of stored teams that carry the identifier. *)
Definition count_team_id (tid : string) (l : list StoredTeam) : nat :=
  length (List.filter (has_team_id tid) l).

End Teams.

(** ** Match posts, chat and statistics *)

Module Matchpost.
Record t : Type := mk {
  team_id : string;
  sport : string;
  num_players : Z;
  time_pref : string;
  note : option string;
  location_name : option string;
  latitude : option R;
  longitude : option R
}.
End Matchpost.

Module Message.
Record t : Type := mk {
  from_team_id : string;
  to_team_id : string;
  text : string
}.
End Message.

Module MatchCreate.
Record t : Type := mk {
  team_id : string;
  sport : string;
  num_players : Z;
  time_pref : string;
  note : option string
}.
End MatchCreate.

Module ChatCreate.
Record t : Type := mk {
  from_team_id : string;
  to_team_id : string;
  text : string
}.
End ChatCreate.

Module Posts.
Import Registration Teams.
Open Scope list_scope.

(** The object [db] with its three collections; a stored match post or
    message is its [_id] and its fields. *)
Record Database : Type := mkDatabase {
  team : Db;
  matchpost : list (string * Matchpost.t);
  message : list (string * Message.t)
}.

(** The ["team"] collection as the functions above take it. *)
Definition teams_of (db : option Database) : option Db :=
  match db with
  | Some b => Some (team b)
  | None => None
  end.

(** [Matchpost(...)]: [sport] and [time_pref] are literals and
    [num_players] has [ge=1]. *)
Definition Matchpost_validate (x : Matchpost.t) : outcome Matchpost.t :=
  if literal Sport (Matchpost.sport x)
     && (1 <=? Matchpost.num_players x)%Z
     && literal TimeSlot (Matchpost.time_pref x)
  then Ok x
  else Raise ValidationError.

(** [Message(...)]: [text] has [min_length=1] and [max_length=2000];
    a string is the sequence of its characters. *)
Definition Message_validate (x : Message.t) : outcome Message.t :=
  if (1 <=? String.length (Message.text x))%nat
     && (String.length (Message.text x) <=? 2000)%nat
  then Ok x
  else Raise ValidationError.

(** Modelled from the spec: [create_document] of the [database] module
    for the ["matchpost"] collection; [insert] stores the document and
    returns the generated identifier [oid], and a storage failure
    propagates. *)
Definition create_matchpost_document (db : option Database) (oid : string) (x : Matchpost.t)
  : outcome string * option Database :=
  match db with
  | None => (Raise StorageError, None)
  | Some b =>
      if reachable (team b)
      then (Ok oid, Some (mkDatabase (team b) (matchpost b ++ [(oid, x)]) (message b)))
      else (Raise StorageError, Some b)
  end.

(** Modelled from the spec: [create_document] of the [database] module
    for the ["message"] collection, as for ["matchpost"]. *)
Definition create_message_document (db : option Database) (oid : string) (x : Message.t)
  : outcome string * option Database :=
  match db with
  | None => (Raise StorageError, None)
  | Some b =>
      if reachable (team b)
      then (Ok oid, Some (mkDatabase (team b) (matchpost b) (message b ++ [(oid, x)])))
      else (Raise StorageError, Some b)
  end.

(** The response [{"ok": True, "id": inserted_id}] is its [id]. *)
Definition create_match_post (oid : string) (payload : MatchCreate.t) (db : option Database)
  : outcome string * option Database :=
  match find_one_team_id (teams_of db) (MatchCreate.team_id payload) with
  | Raise e => (Raise e, db)
  | Ok None => (Raise team_not_found, db)
  | Ok (Some team) =>
      let mp :=
        Matchpost_validate
          (Matchpost.mk (MatchCreate.team_id payload)
                        (MatchCreate.sport payload)
                        (MatchCreate.num_players payload)
                        (MatchCreate.time_pref payload)
                        (MatchCreate.note payload)
                        (location_name (doc team))
                        (latitude (doc team))
                        (longitude (doc team))) in
      match mp with
      | Raise e => (Raise e, db)
      | Ok mp => create_matchpost_document db oid mp
      end
  end.

Definition registration_incomplete : exn :=
  HTTPException 400 "Teams must complete registration to chat".

(** [not s] for a string *)
Definition str_falsy (s : string) : bool := String.eqb s "".

Definition send_message (oid : string) (payload : ChatCreate.t) (db : option Database)
  : outcome string * option Database :=
  (* Ensure both teams exist *)
  match find_one_team_id (teams_of db) (ChatCreate.from_team_id payload) with
  | Raise e => (Raise e, db)
  | Ok a =>
      match find_one_team_id (teams_of db) (ChatCreate.to_team_id payload) with
      | Raise e => (Raise e, db)
      | Ok b =>
          match a, b with
          | Some a, Some b =>
              (* Basic registration check: both must have contact number *)
              if str_falsy (contact_number (doc a)) || str_falsy (contact_number (doc b))
              then (Raise registration_incomplete, db)
              else
                match Message_validate
                        (Message.mk (ChatCreate.from_team_id payload)
                                    (ChatCreate.to_team_id payload)
                                    (ChatCreate.text payload)) with
                | Raise e => (Raise e, db)
                | Ok m => create_message_document db oid m
                end
          | _, _ => (Raise team_not_found, db)
          end
      end
  end.

(** The response [{"total_teams": teams, "total_match_posts": posts}]
    as a pair. *)
Definition admin_stats (db : option Database) : outcome (nat * nat) :=
  let! teams :=
    (let! b := Allocator.bool_db (teams_of db) in
     match b, db with
     | true, Some h =>
         if reachable (team h) then Ok (length (team_collection (team h)))
         else Raise StorageError
     | _, _ => Ok 0%nat
     end) in
  let! posts :=
    (let! b := Allocator.bool_db (teams_of db) in
     match b, db with
     | true, Some h =>
         if reachable (team h) then Ok (length (matchpost h)) else Raise StorageError
     | _, _ => Ok 0%nat
     end) in
  Ok (teams, posts).

(** [register_team] and [admin_delete_team] on the whole [db]: they
    touch the ["team"] collection only. *)
Definition with_teams (db : option Database) (t : option Db) : option Database :=
  match db, t with
  | Some b, Some d => Some (mkDatabase d (matchpost b) (message b))
  | _, _ => db
  end.

(** Data used in the examples. *)
Definition payload_lions : TeamCreate.t :=
  TeamCreate.mk "Lions" "cricket" ["meera"] None (Some 12%R) (Some 77%R) "text" "300" [].

Definition payload_tigers : TeamCreate.t :=
  TeamCreate.mk "Tigers" "cricket" ["kiran"] None None None "call" "400" ["evening"].

Definition db_asha_lions : Db :=
  mkDb (team_collection db_with_asha
        ++ [mkStored (Some "o3") (team_of payload_lions "CRK-100")]) true.

Definition database_asha : Database := mkDatabase db_with_asha [] [].

Definition post_asha : MatchCreate.t :=
  MatchCreate.mk "CRK-100" "cricket" 11 "evening" None.

Definition chat_asha : ChatCreate.t :=
  ChatCreate.mk "CRK-100" "CRK-100" "hello".

End Posts.

(** ** The distance loop in double precision

    The same lines of [nearby_teams] and [haversine] with [float] as the
    IEEE 754 binary64 numbers of the interpreter.  Addition, subtraction,
    multiplication, division and square root are the primitive
    operations; the functions of the C library and the decimal rounding of
    [round] are a parameter. *)

Module Doubles.
Open Scope float_scope.

Record Platform : Type := mkPlatform {
  c_sin : float -> float;
  c_cos : float -> float;
  c_asin : float -> float;
  c_pow : float -> float -> float;
  round_2 : float -> float          (* [round(x, 2)] *)
}.

(** The wrapper of [math] around a function of one argument: a NaN result
    for an argument that is not NaN, or an infinite result for a finite
    argument, is a [ValueError]. *)
Definition math_1 (f : float -> float) (x : float) : outcome float :=
  let r := f x in
  if is_nan r && negb (is_nan x) then Raise ValueError
  else if is_infinity r && is_finite x then Raise ValueError
  else Ok r.

Definition pi : float := 0x1.921fb54442d18p+1.

(** [math.radians] *)
Definition radians (x : float) : float := x * (pi / 180).

(** [v ** 2] for a float [v]: the cases [float.__pow__] decides itself,
    and otherwise the C function with its range error. *)
Definition float_pow_2 (P : Platform) (v : float) : outcome float :=
  if is_nan v then Ok v
  else if is_infinity v then Ok infinity
  else if v =? 0 then Ok 0
  else
    let iv := abs v in
    if iv =? 1 then Ok 1
    else
      let ix := c_pow P iv 2 in
      if is_infinity ix then Raise OverflowError else Ok ix.

Definition haversine (P : Platform) (lat1 lon1 lat2 lon2 : float) : outcome float :=
  (* distance in km; [R0] is the source's [R = 6371.0] *)
  let R0 := 6371 in
  let dlat := radians (lat2 - lat1) in
  let dlon := radians (lon2 - lon1) in
  let! s1 := math_1 (c_sin P) (dlat / 2) in
  let! p1 := float_pow_2 P s1 in
  let! c1 := math_1 (c_cos P) (radians lat1) in
  let! c2 := math_1 (c_cos P) (radians lat2) in
  let! s2 := math_1 (c_sin P) (dlon / 2) in
  let! p2 := float_pow_2 P s2 in
  let a := p1 + c1 * c2 * p2 in
  let! q := math_1 PrimFloat.sqrt a in
  let! t := math_1 (c_asin P) q in
  let c := 2 * t in
  Ok (R0 * c).

(** A stored team: the keys the loop reads, and the other keys, which it
    carries along unchanged. *)
Record FDoc (A : Type) : Type := mkFDoc {
  fdoc_id : option string;
  fdoc_latitude : option float;
  fdoc_longitude : option float;
  fdoc_rest : A
}.
Arguments mkFDoc {A}.
Arguments fdoc_id {A}.
Arguments fdoc_latitude {A}.
Arguments fdoc_longitude {A}.
Arguments fdoc_rest {A}.

Record FItem (A : Type) : Type := mkFItem {
  fitem_id : string;
  fitem_latitude : option float;
  fitem_longitude : option float;
  fitem_rest : A;
  fitem_distance_km : option float
}.
Arguments mkFItem {A}.
Arguments fitem_id {A}.
Arguments fitem_latitude {A}.
Arguments fitem_longitude {A}.
Arguments fitem_rest {A}.
Arguments fitem_distance_km {A}.

(** [t["id"] = str(t.pop("_id", ""))] *)
Definition stringify_id {A : Type} (t : FDoc A) : FItem A :=
  mkFItem (default "" (fdoc_id t)) (fdoc_latitude t) (fdoc_longitude t) (fdoc_rest t) None.

(** [t["distance_km"] = d] *)
Definition set_distance_km {A : Type} (x : FItem A) (d : float) : FItem A :=
  mkFItem (fitem_id x) (fitem_latitude x) (fitem_longitude x) (fitem_rest x) (Some d).

Definition nearby_step {A : Type} (P : Platform) (center_lat center_lon : option float)
    (range_km : float) (result : list (FItem A)) (t0 : FDoc A) : list (FItem A) :=
  let t := stringify_id t0 in
  let lat := fitem_latitude t in
  let lon := fitem_longitude t in
  match center_lat, center_lon, lat, lon with
  | Some clat, Some clon, Some la, Some lo =>
      try_except
        (let! dist := haversine P clat clon la lo in
         if dist <=? range_km
         then Ok (result ++ [set_distance_km t (round_2 P dist)])%list
         else Ok result)
        (result ++ [t])%list
  | _, _, _, _ =>
      (* if coordinates not provided, include all *)
      (result ++ [t])%list
  end.

(** [x.get("distance_km", 0)] *)
Definition sort_key {A : Type} (x : FItem A) : float := default 0 (fitem_distance_km x).

(** [list.sort(key=...)]: stable, and it compares keys with [<] only. *)
Fixpoint insert_by {B : Type} (key : B -> float) (x : B) (l : list B) : list B :=
  match l with
  | [] => [x]
  | y :: l' => if key y <? key x then y :: insert_by key x l' else x :: y :: l'
  end.

Fixpoint list_sort {B : Type} (key : B -> float) (l : list B) : list B :=
  match l with
  | [] => []
  | x :: l' => insert_by key x (list_sort key l')
  end.

Definition proximity_engine {A : Type} (P : Platform) (teams : list (FDoc A))
    (center_lat center_lon : option float) (range_km : float) : list (FItem A) :=
  let result := fold_left (nearby_step P center_lat center_lon range_km) teams [] in
  list_sort sort_key result.

(** The request of the example: a centre at (-58.4014011, -130.5866279)
    and one team stored at (58.4014010, 49.4133719), nearly opposite on
    the sphere, about 20015 km away. *)
Definition far_center_lat : float := -0x1.d33611c7a8a0ap+5.
Definition far_center_lon : float := -0x1.052c5a7dfad7ap+7.
Definition far_team_lat : float := 0x1.d33611ba3ca75p+5.
Definition far_team_lon : float := 0x1.8b4e95ed3caeep+5.

Definition far_team {A : Type} (rest : A) : FDoc A :=
  mkFDoc (Some "far") (Some far_team_lat) (Some far_team_lon) rest.

(** A platform that has the values of the C library at the arguments of
    the example (sin 1.0192967361001737 = 0.8517397468819569 and so on)
    and is not specified elsewhere. *)
Definition sample_platform : Platform :=
  mkPlatform
    (fun x => if x =? 0x1.04f0a18278441p+0 then 0x1.b4173b6b1f65bp-1
              else if x =? 0x1.921fb53cc3cf0p+0 then 1 else x)
    (fun x => if x =? -0x1.04f0a18637c54p+0 then 0x1.0c45269331479p-1
              else if x =? 0x1.04f0a17eb8c2cp+0 then 0x1.0c45269ff645fp-1 else 1)
    (fun x => if 1 <? abs x then nan else x)
    (fun x y => x * x)
    (fun x => x).

End Doubles.

(** ** Theorems: identifier allocator *)

Module AllocatorFacts.
Import Allocator.

Lemma dict_get_prefix (s : string) :
  dict_get SPORT_PREFIX s "TMP" = spec_prefix s.
Proof.
  unfold spec_prefix, dict_get, SPORT_PREFIX.
  repeat match goal with
  | |- context [String.eqb s ?k] =>
      destruct (String.eqb_spec s k) as [->|?]; [vm_compute; reflexivity|]
  end.
  rewrite !lookup_insert_ne by congruence.
  rewrite lookup_empty. reflexivity.
Qed.

(** The test [if db] never lets the count through: [db] is [None], or
    its truth value raises inside the [try] and the handler sets the
    count to 0. *)
Lemma generate_team_id_value (db : option Db) (s : string) :
  generate_team_id db s = spec_prefix s ++ "-100".
Proof.
  unfold generate_team_id. rewrite dict_get_prefix.
  destruct db as [d|]; reflexivity.
Qed.

(** C3 (the code departs from the claim). Whatever the collection holds,
    the allocator returns the prefix of the sport followed by -100: with
    29 cricket teams stored, where the count query would answer 29 and
    the claim gives CRK-129, the code returns CRK-100.  The second
    example of the claim, TMP-100 for an unknown sport on an empty
    collection, is what the code returns. *)
Theorem C3_generate_team_id_ignores_count :
  count_documents db_29_cricket "cricket" = Ok 29
  /\ generate_team_id (Some db_29_cricket) "cricket" = "CRK-100"
  /\ generate_team_id (Some db_29_cricket) "cricket" <> "CRK-129"
  /\ generate_team_id (Some db_empty) "unknownsport" = "TMP-100"
  /\ (forall (db : option Db) (s : string),
        generate_team_id db s = spec_prefix s ++ "-100").
Proof.
  split; [reflexivity|].
  split; [rewrite generate_team_id_value; reflexivity|].
  split; [rewrite generate_team_id_value; discriminate|].
  split; [rewrite generate_team_id_value; reflexivity|].
  exact generate_team_id_value.
Qed.

(** C4. When the count query raises, the allocator raises nothing: the
    count is taken as zero and the identifier is the prefix followed by
    -100, for every sport string. *)
Theorem C4_generate_team_id_count_failure (d : Db) (s : string) (e : exn) :
  count_documents d s = Raise e ->
  generate_team_id (Some d) s = spec_prefix s ++ "-100".
Proof.
  intros Hc. unfold generate_team_id. cbn [bool_db obind try_except].
  rewrite dict_get_prefix. reflexivity.
Qed.

Lemma C4_generate_team_id_count_failure_witness :
  count_documents db_down "kabaddi" = Raise StorageError
  /\ generate_team_id (Some db_down) "kabaddi" = "KBD-100".
Proof.
  split; [reflexivity|].
  exact (C4_generate_team_id_count_failure db_down "kabaddi" StorageError eq_refl).
Defined.

End AllocatorFacts.

(** ** Theorems: great-circle distance *)

Module GeoFacts.
Import Geo.
Open Scope R_scope.

Lemma sqr_sin_le_1 (x : R) : 0 <= sin x ^ 2 <= 1.
Proof.
  pose proof (sin2_cos2 x) as H. unfold Rsqr in H.
  pose proof (pow2_ge_0 (sin x)). pose proof (pow2_ge_0 (cos x)).
  split; [assumption|]. nra.
Qed.

Lemma sqr_cos_le_1 (x : R) : 0 <= cos x ^ 2 <= 1.
Proof.
  pose proof (sin2_cos2 x) as H. unfold Rsqr in H.
  pose proof (pow2_ge_0 (sin x)). pose proof (pow2_ge_0 (cos x)).
  split; [assumption|]. nra.
Qed.

(** [cos p * cos q] through the half sum and the half difference. *)
Lemma cos_mult_half (p q : R) :
  cos p * cos q = cos ((p + q) / 2) ^ 2 - sin ((q - p) / 2) ^ 2.
Proof.
  set (u := (p + q) / 2). set (v := (q - p) / 2).
  replace p with (u - v) by (unfold u, v; lra).
  replace q with (u + v) at 1 by (unfold u, v; lra).
  rewrite cos_minus, cos_plus.
  pose proof (sin2_cos2 u) as Hu. pose proof (sin2_cos2 v) as Hv.
  unfold Rsqr in Hu, Hv. nra.
Qed.

Lemma spec_a_convex (lat1 lon1 lat2 lon2 : R) :
  spec_a lat1 lon1 lat2 lon2 =
  (1 - sin (radians (lon2 - lon1) / 2) ^ 2) * sin (radians (lat2 - lat1) / 2) ^ 2
  + sin (radians (lon2 - lon1) / 2) ^ 2 * cos ((radians lat1 + radians lat2) / 2) ^ 2.
Proof.
  unfold spec_a. cbv zeta. rewrite cos_mult_half.
  replace ((radians lat2 - radians lat1) / 2) with (radians (lat2 - lat1) / 2)
    by (unfold radians; lra).
  ring.
Qed.

Lemma spec_a_range (lat1 lon1 lat2 lon2 : R) :
  0 <= spec_a lat1 lon1 lat2 lon2 <= 1.
Proof.
  rewrite spec_a_convex.
  pose proof (sqr_sin_le_1 (radians (lon2 - lon1) / 2)).
  pose proof (sqr_sin_le_1 (radians (lat2 - lat1) / 2)).
  pose proof (sqr_cos_le_1 ((radians lat1 + radians lat2) / 2)).
  split; nra.
Qed.

Lemma sqrt_range (x : R) : 0 <= x <= 1 -> 0 <= sqrt x <= 1.
Proof.
  intros [H0 H1]. split; [apply sqrt_pos|].
  rewrite <- sqrt_1. apply sqrt_le_1_alt. assumption.
Qed.

Lemma math_sqrt_ok (x : R) : 0 <= x -> math_sqrt x = Ok (sqrt x).
Proof. intros H. unfold math_sqrt. destruct (Rlt_dec x 0); [lra|reflexivity]. Qed.

Lemma math_asin_ok (x : R) : -1 <= x <= 1 -> math_asin x = Ok (asin x).
Proof.
  intros H. unfold math_asin.
  destruct (Rlt_dec x (-1)); [lra|]. destruct (Rlt_dec 1 x); [lra|reflexivity].
Qed.

(** Over the reals [haversine] raises no domain error. *)
Lemma haversine_value (lat1 lon1 lat2 lon2 : R) :
  haversine lat1 lon1 lat2 lon2 =
  Ok (6371 * (2 * asin (sqrt (spec_a lat1 lon1 lat2 lon2)))).
Proof.
  unfold haversine. cbv zeta. fold (spec_a lat1 lon1 lat2 lon2).
  pose proof (spec_a_range lat1 lon1 lat2 lon2) as Ha.
  pose proof (sqrt_range _ Ha) as Hs.
  rewrite math_sqrt_ok by lra. cbn [obind].
  rewrite math_asin_ok by lra. reflexivity.
Qed.

Lemma spec_a_sym (lat1 lon1 lat2 lon2 : R) :
  spec_a lat1 lon1 lat2 lon2 = spec_a lat2 lon2 lat1 lon1.
Proof.
  unfold spec_a. cbv zeta.
  replace (radians (lat1 - lat2) / 2) with (- (radians (lat2 - lat1) / 2))
    by (unfold radians; lra).
  replace (radians (lon1 - lon2) / 2) with (- (radians (lon2 - lon1) / 2))
    by (unfold radians; lra).
  rewrite !sin_neg. ring.
Qed.

Lemma haversine_spec_distance (lat1 lon1 lat2 lon2 : R) :
  haversine lat1 lon1 lat2 lon2 = Ok (spec_distance lat1 lon1 lat2 lon2).
Proof. rewrite haversine_value. unfold spec_distance. f_equal. ring. Qed.

(** C8. For all coordinates in decimal degrees, [haversine] is the
    computation of the specification: with [a] the quantity of the
    specification, its outcome is that of taking [math.sqrt] of [a], then
    [math.asin], and returning [2 * 6371.0] times the result; so whenever
    it returns, it returns [2 * 6371.0 * asin (sqrt a)]. *)
Theorem C8_haversine_formula (lat1 lon1 lat2 lon2 : R) :
  let dlat := radians (lat2 - lat1) in
  let dlon := radians (lon2 - lon1) in
  let a := sin (dlat / 2) ^ 2
           + cos (radians lat1) * cos (radians lat2) * sin (dlon / 2) ^ 2 in
  haversine lat1 lon1 lat2 lon2 =
    (let! s := math_sqrt a in
     let! t := math_asin s in
     Ok (2 * 6371 * t))
  /\ (forall d, haversine lat1 lon1 lat2 lon2 = Ok d -> d = 2 * 6371 * asin (sqrt a)).
Proof.
  intros dlat dlon a.
  assert (E : haversine lat1 lon1 lat2 lon2 =
              (let! s := math_sqrt a in let! t := math_asin s in Ok (2 * 6371 * t))).
  { unfold haversine. cbv zeta. fold dlat dlon. fold a.
    destruct (math_sqrt a) as [s|e]; [|reflexivity]. cbn [obind].
    destruct (math_asin s) as [t|e]; [|reflexivity]. cbn [obind].
    f_equal. ring. }
  split; [exact E|].
  intros d Hd. rewrite E in Hd. unfold math_sqrt, math_asin in Hd.
  destruct (Rlt_dec a 0); [discriminate|]. cbn [obind] in Hd.
  destruct (Rlt_dec (sqrt a) (-1)); [discriminate|].
  destruct (Rlt_dec 1 (sqrt a)); [discriminate|].
  cbn [obind] in Hd. injection Hd as <-. reflexivity.
Qed.

(** C9. The haversine distance is symmetric in its two points. *)
Theorem C9_haversine_symmetric (lat1 lon1 lat2 lon2 : R) :
  haversine lat1 lon1 lat2 lon2 = haversine lat2 lon2 lat1 lon1.
Proof.
  rewrite !haversine_value, (spec_a_sym lat1 lon1 lat2 lon2). reflexivity.
Qed.

End GeoFacts.

(** ** Theorems: nearby opponents *)

Module ProximityFacts.
Import Geo GeoFacts Proximity.
Open Scope R_scope.
Open Scope list_scope.

Section StableSort.
Context {A : Type} (key : A -> R).

Lemma insert_by_perm (x : A) (l : list A) :
  Permutation (insert_by key x l) (x :: l).
Proof.
  induction l as [|y l IH]; simpl; [reflexivity|].
  destruct (Rle_dec (key x) (key y)); [reflexivity|].
  rewrite IH. apply perm_swap.
Qed.

Lemma list_sort_perm (l : list A) : Permutation (list_sort key l) l.
Proof.
  induction l as [|x l IH]; simpl; [reflexivity|].
  rewrite insert_by_perm. constructor. exact IH.
Qed.

Lemma insert_by_sorted (x : A) (l : list A) :
  StronglySorted (key_le key) l -> StronglySorted (key_le key) (insert_by key x l).
Proof.
  induction 1 as [|y l Hs IH Hy]; simpl.
  - constructor; constructor.
  - destruct (Rle_dec (key x) (key y)) as [Hxy|Hxy].
    + constructor; [constructor; assumption|].
      constructor; [exact Hxy|].
      eapply List.Forall_impl; [|exact Hy].
      intros z Hz. unfold key_le in *. lra.
    + constructor; [exact IH|].
      eapply Permutation_Forall; [symmetry; apply insert_by_perm|].
      constructor; [unfold key_le; lra|exact Hy].
Qed.

Lemma list_sort_sorted (l : list A) : StronglySorted (key_le key) (list_sort key l).
Proof.
  induction l as [|x l IH]; simpl; [constructor|].
  apply insert_by_sorted, IH.
Qed.

(** Stability in the form used below: a list that is already in
    ascending key order is left as it is. *)
Lemma list_sort_id (l : list A) : StronglySorted (key_le key) l -> list_sort key l = l.
Proof.
  induction 1 as [|x l Hs IH Hx]; simpl; [reflexivity|].
  rewrite IH. destruct Hx as [|y l' Hy _]; simpl; [reflexivity|].
  destruct (Rle_dec (key x) (key y)); [reflexivity|contradiction].
Qed.

Lemma sorted_lookup (l : list A) (i j : nat) (x y : A) :
  StronglySorted (key_le key) l -> (i < j)%nat ->
  l !! i = Some x -> l !! j = Some y -> key x <= key y.
Proof.
  intros Hs. revert i j.
  induction Hs as [|z l Hs IH Hz]; intros i j Hij Hi Hj.
  - discriminate.
  - destruct j as [|j]; [lia|]. simpl in Hj.
    destruct i as [|i]; simpl in Hi.
    + injection Hi as ->.
      rewrite Forall_forall in Hz. apply Hz.
      eapply list_elem_of_lookup_2. exact Hj.
    + apply (IH i j); [lia|assumption..].
Qed.
End StableSort.

Lemma insert_by_tied {A : Type} (key : A -> R) (k : R) (x : A) (l : list A) :
  List.filter (Ties.tied_at key k) (insert_by key x l) = List.filter (Ties.tied_at key k) (x :: l).
Proof.
  induction l as [|y l IH]; [reflexivity|]. cbn [insert_by].
  destruct (Rle_dec (key x) (key y)) as [Hxy|Hxy]; [reflexivity|].
  cbn [List.filter] in IH |- *. rewrite IH. unfold Ties.tied_at.
  destruct (Req_dec_T (key x) k) as [Ex|Ex]; [|reflexivity].
  destruct (Req_dec_T (key y) k) as [Ey|Ey]; [|reflexivity].
  exfalso. apply Hxy. rewrite Ex, Ey. apply Rle_refl.
Qed.

Lemma list_sort_tied {A : Type} (key : A -> R) (k : R) (l : list A) :
  List.filter (Ties.tied_at key k) (list_sort key l) = List.filter (Ties.tied_at key k) l.
Proof.
  induction l as [|x l IH]; [reflexivity|]. cbn [list_sort].
  rewrite insert_by_tied. cbn [List.filter]. rewrite IH. reflexivity.
Qed.

Lemma nearby_step_visit (cl cr : option R) (r : R) (acc : list NearbyItem) (t : StoredTeam) :
  nearby_step cl cr r acc t = acc ++ visit cl cr r t.
Proof.
  unfold visit, nearby_step. cbv zeta.
  destruct cl as [clat|], cr as [clon|]; try reflexivity.
  destruct (latitude (item (stringify_id t))) as [la|]; [|reflexivity].
  destruct (longitude (item (stringify_id t))) as [lo|]; [|reflexivity].
  rewrite haversine_value. cbn [obind].
  destruct (Rle_dec _ r); cbn [try_except]; [reflexivity|].
  rewrite app_nil_r. reflexivity.
Qed.

Lemma loop_flat_map (cl cr : option R) (r : R) (teams : list StoredTeam) (acc : list NearbyItem) :
  fold_left (nearby_step cl cr r) teams acc = acc ++ flat_map (visit cl cr r) teams.
Proof.
  revert acc. induction teams as [|t teams IH]; intros acc; simpl.
  - rewrite app_nil_r. reflexivity.
  - rewrite IH, nearby_step_visit, <- app_assoc. reflexivity.
Qed.

Lemma engine_flat_map (teams : list StoredTeam) (cl cr : option R) (r : R) :
  proximity_engine teams cl cr r = list_sort sort_key (flat_map (visit cl cr r) teams).
Proof. unfold proximity_engine. cbv zeta. rewrite loop_flat_map. reflexivity. Qed.

Lemma visit_no_center (cl cr : option R) (r : R) (t : StoredTeam) :
  cl = None \/ cr = None -> visit cl cr r t = [stringify_id t].
Proof.
  intros [-> | ->]; unfold visit, nearby_step; cbv zeta.
  - reflexivity.
  - destruct cl; reflexivity.
Qed.

Lemma visit_unknown (cl cr : option R) (r : R) (t : StoredTeam) :
  latitude (doc t) = None \/ longitude (doc t) = None ->
  visit cl cr r t = [stringify_id t].
Proof.
  intros H. unfold visit, nearby_step. cbv zeta. cbn [stringify_id item].
  destruct cl, cr; try reflexivity.
  destruct H as [-> | ->]; [reflexivity|].
  destruct (latitude (doc t)); reflexivity.
Qed.

Lemma visit_known (clat clon r la lo : R) (t : StoredTeam) :
  latitude (doc t) = Some la -> longitude (doc t) = Some lo ->
  visit (Some clat) (Some clon) r t =
  if Rle_dec (spec_distance clat clon la lo) r
  then [set_distance_km (stringify_id t) (py_round (spec_distance clat clon la lo) 2)]
  else [].
Proof.
  intros Hla Hlo. unfold visit, nearby_step. cbv zeta. cbn [stringify_id item].
  rewrite Hla, Hlo.
  rewrite haversine_spec_distance. cbn [obind].
  destruct (Rle_dec _ r); reflexivity.
Qed.

Lemma sorted_const_key {A : Type} (key : A -> R) (c : R) (l : list A) :
  (forall x, In x l -> key x = c) -> StronglySorted (key_le key) l.
Proof.
  induction l as [|x l IH]; intros H; constructor.
  - apply IH. intros y Hy. apply H. right. exact Hy.
  - apply List.Forall_forall. intros y Hy. unfold key_le.
    rewrite (H x), (H y); [lra|right; exact Hy|left; reflexivity].
Qed.

Lemma flat_map_no_center (cl cr : option R) (r : R) (teams : list StoredTeam) :
  cl = None \/ cr = None ->
  flat_map (visit cl cr r) teams = map stringify_id teams.
Proof.
  intros H. induction teams as [|t teams IH]; simpl; [reflexivity|].
  rewrite IH, visit_no_center by exact H. reflexivity.
Qed.

(** The elements of the response come from the stored teams, and an
    annotation is the rounded haversine distance, within the radius. *)
Lemma visit_inv (cl cr : option R) (r : R) (t : StoredTeam) (x : NearbyItem) :
  In x (visit cl cr r t) ->
  represents x t /\
  (distance_km x = None \/
   exists clat clon la lo,
     cl = Some clat /\ cr = Some clon /\
     latitude (doc t) = Some la /\ longitude (doc t) = Some lo /\
     spec_distance clat clon la lo <= r /\
     distance_km x = Some (py_round (spec_distance clat clon la lo) 2)).
Proof.
  intros Hx.
  destruct (latitude (doc t)) as [la|] eqn:Hla;
    [destruct (longitude (doc t)) as [lo|] eqn:Hlo|].
  - destruct cl as [clat|]; [destruct cr as [clon|]|].
    + rewrite (visit_known clat clon r la lo t Hla Hlo) in Hx.
      destruct (Rle_dec _ r) as [Hle|Hle]; [|destruct Hx].
      destruct Hx as [<-|[]]. split; [split; reflexivity|].
      right. exists clat, clon, la, lo. repeat split; try reflexivity. exact Hle.
    + rewrite visit_no_center in Hx by (right; reflexivity).
      destruct Hx as [<-|[]]. split; [split; reflexivity|left; reflexivity].
    + rewrite visit_no_center in Hx by (left; reflexivity).
      destruct Hx as [<-|[]]. split; [split; reflexivity|left; reflexivity].
  - rewrite visit_unknown in Hx by (right; exact Hlo).
    destruct Hx as [<-|[]]. split; [split; reflexivity|left; reflexivity].
  - rewrite visit_unknown in Hx by (left; exact Hla).
    destruct Hx as [<-|[]]. split; [split; reflexivity|left; reflexivity].
Qed.

Lemma engine_In (teams : list StoredTeam) (cl cr : option R) (r : R) (x : NearbyItem) :
  In x (proximity_engine teams cl cr r) <->
  exists t, In t teams /\ In x (visit cl cr r t).
Proof.
  rewrite engine_flat_map. rewrite <- in_flat_map. split; intros H.
  - eapply Permutation_in; [apply list_sort_perm|exact H].
  - eapply Permutation_in; [symmetry; apply list_sort_perm|exact H].
Qed.

(** C6. When either centre coordinate is absent, the output is the input
    list with [_id] turned into [id]: every team, in input order, the
    same count, and no [distance_km]. *)
Theorem C6_no_center_returns_all (teams : list StoredTeam) (cl cr : option R) (r : R) :
  cl = None \/ cr = None ->
  proximity_engine teams cl cr r = map stringify_id teams
  /\ length (proximity_engine teams cl cr r) = length teams
  /\ (forall x, In x (proximity_engine teams cl cr r) -> distance_km x = None).
Proof.
  intros H.
  assert (E : proximity_engine teams cl cr r = map stringify_id teams).
  { rewrite engine_flat_map, flat_map_no_center by exact H.
    apply list_sort_id. apply (sorted_const_key sort_key 0).
    intros x Hx. apply in_map_iff in Hx. destruct Hx as [t [<- _]]. reflexivity. }
  rewrite E. split; [reflexivity|]. split.
  - apply length_map.
  - intros x Hx. apply in_map_iff in Hx. destruct Hx as [t [<- _]]. reflexivity.
Qed.

Lemma C6_no_center_returns_all_witness :
  proximity_engine [T1; T2; T3] None (Some 0) 50 = map stringify_id [T1; T2; T3]
  /\ length (proximity_engine [T1; T2; T3] None (Some 0) 50) = length [T1; T2; T3]
  /\ (forall x, In x (proximity_engine [T1; T2; T3] None (Some 0) 50) ->
                distance_km x = None).
Proof.
  apply (C6_no_center_returns_all [T1; T2; T3] None (Some 0) 50).
  left. reflexivity.
Defined.

(** *** Evaluation on the equator *)

Lemma spec_distance_equator (lon : R) :
  0 <= lon <= 180 -> spec_distance 0 0 0 lon = 6371 * radians lon.
Proof.
  intros Hlon. unfold spec_distance, spec_a. cbv zeta.
  pose proof PI_RGT_0 as Hpi.
  set (x := radians lon / 2).
  assert (Hx : 0 <= x <= PI / 2) by (unfold x, radians; split; nra).
  replace (radians (0 - 0) / 2) with 0 by (unfold radians; lra).
  replace (radians 0) with 0 by (unfold radians; lra).
  replace (radians (lon - 0) / 2) with x by (unfold x, radians; lra).
  rewrite sin_0, cos_0.
  replace (0 ^ 2 + 1 * 1 * sin x ^ 2) with (sin x ^ 2) by ring.
  rewrite sqrt_pow2 by (apply sin_ge_0; lra).
  rewrite asin_sin by lra.
  unfold x. lra.
Qed.

Lemma Int_part_unit (x : R) : 0 <= x < 1 -> Int_part x = 0%Z.
Proof. intros H. symmetry. apply Int_part_spec. simpl. lra. Qed.

Lemma py_round_small (x : R) : 0 <= x < 5 / 1000 -> py_round x 2 = 0.
Proof.
  intros H. unfold py_round, round_half_even. cbv zeta.
  replace (10 ^ 2) with 100 by (simpl; lra).
  rewrite Int_part_unit by lra.
  destruct (Rlt_dec (x * 100 - 0) (1 / 2)); [|lra].
  simpl. lra.
Qed.

Lemma radians_bounds (lon : R) : 0 <= lon -> 0 <= radians lon <= lon * (4 / 180).
Proof.
  intros H. pose proof PI_RGT_0. pose proof PI_4. unfold radians. split; nra.
Qed.

(** A team within a few metres of the centre is annotated with 0.0. *)
Lemma visit_very_near (name : string) (lon r : R) :
  0 <= lon <= 2 / 100000 -> 1 <= r ->
  visit (Some 0) (Some 0) r (team_at name (Some 0) (Some lon)) =
  [mkItem name (doc (team_at name (Some 0) (Some lon))) (Some 0)].
Proof.
  intros Hlon Hr.
  rewrite (visit_known 0 0 r 0 lon) by reflexivity.
  rewrite spec_distance_equator by lra.
  pose proof (radians_bounds lon (proj1 Hlon)) as Hb.
  destruct (Rle_dec (6371 * radians lon) r) as [_|Hn]; [|exfalso; apply Hn; nra].
  rewrite py_round_small by (split; nra).
  reflexivity.
Qed.

(** Two teams about 2.2 m and 1.1 m from the centre, the farther one
    stored first: both are reported at 0.0 and stay in input order. *)
Lemma engine_near_pair :
  proximity_engine [near_a; near_b] (Some 0) (Some 0) 10 =
  [shown near_a (Some 0); shown near_b (Some 0)].
Proof.
  rewrite engine_flat_map. cbn [flat_map].
  unfold near_a, near_b.
  rewrite !visit_very_near by lra.
  cbn [app]. apply list_sort_id.
  apply (sorted_const_key sort_key 0).
  intros x [<-|[<-|[]]]; reflexivity.
Qed.

(** A team 2.2 m from the centre stored before a team without location:
    both have sort key 0 and stay in input order. *)
Lemma engine_near_then_unknown :
  proximity_engine [near_a; T3] (Some 0) (Some 0) 10 =
  [shown near_a (Some 0); shown T3 None].
Proof.
  rewrite engine_flat_map. cbn [flat_map].
  unfold near_a at 1.
  rewrite visit_very_near by lra.
  rewrite (visit_unknown _ _ _ T3) by (left; reflexivity).
  cbn [app]. apply list_sort_id.
  apply (sorted_const_key sort_key 0).
  intros x [<-|[<-|[]]]; reflexivity.
Qed.

(** The example of the specification: T1 at the centre, T2 one degree of
    longitude away, T3 without location, radius 50 km. *)
Lemma engine_spec_example :
  proximity_engine [T1; T2; T3] (Some 0) (Some 0) 50 =
  [shown T1 (Some 0); shown T3 None].
Proof.
  rewrite engine_flat_map. cbn [flat_map].
  unfold T1 at 1. rewrite visit_very_near by lra.
  rewrite (visit_known 0 0 50 0 1 T2) by reflexivity.
  rewrite spec_distance_equator by lra.
  destruct (Rle_dec (6371 * radians 1) 50) as [Hle|_].
  { exfalso. pose proof PI2_3_2. unfold radians in Hle. lra. }
  rewrite (visit_unknown _ _ _ T3) by (left; reflexivity).
  cbn [app]. apply list_sort_id.
  apply (sorted_const_key sort_key 0).
  intros x [<-|[<-|[]]]; reflexivity.
Qed.

(** *** Rounding is monotone *)

Lemma Int_part_bounds (x : R) : IZR (Int_part x) <= x < IZR (Int_part x) + 1.
Proof. destruct (base_Int_part x). split; lra. Qed.

Lemma round_half_even_cases (x : R) :
  round_half_even x = Int_part x \/ round_half_even x = (Int_part x + 1)%Z.
Proof.
  unfold round_half_even. cbv zeta.
  destruct (Rlt_dec _ _); [left; reflexivity|].
  destruct (Rlt_dec _ _); [right; reflexivity|].
  destruct (Z.even _); [left|right]; reflexivity.
Qed.

Lemma round_half_even_mono (x y : R) :
  x <= y -> (round_half_even x <= round_half_even y)%Z.
Proof.
  intros Hxy.
  pose proof (Int_part_bounds x) as Hx. pose proof (Int_part_bounds y) as Hy.
  assert (Hnm : (Int_part x <= Int_part y)%Z).
  { apply Z.lt_succ_r. apply lt_IZR. rewrite succ_IZR. lra. }
  destruct (Z.eq_dec (Int_part x) (Int_part y)) as [E|NE].
  - unfold round_half_even. cbv zeta. rewrite <- E.
    destruct (Rlt_dec (x - IZR (Int_part x)) (1 / 2));
      destruct (Rlt_dec (y - IZR (Int_part x)) (1 / 2)); try lia; try lra.
    + destruct (Rlt_dec (1 / 2) (y - IZR (Int_part x))); [lia|].
      destruct (Z.even (Int_part x)); lia.
    + destruct (Rlt_dec (1 / 2) (x - IZR (Int_part x)));
        destruct (Rlt_dec (1 / 2) (y - IZR (Int_part x))); try lia; try lra.
      destruct (Z.even (Int_part x)); lia.
  - destruct (round_half_even_cases x) as [-> | ->],
             (round_half_even_cases y) as [-> | ->]; lia.
Qed.

Lemma py_round_mono (x y : R) (n : nat) : x <= y -> py_round x n <= py_round y n.
Proof.
  intros Hxy. unfold py_round.
  assert (Hp : 0 < 10 ^ n) by (apply pow_lt; lra).
  apply Rmult_le_compat_r; [left; apply Rinv_0_lt_compat; exact Hp|].
  apply IZR_le. apply round_half_even_mono.
  apply Rmult_le_compat_r; lra.
Qed.

(** *** Ranking *)

Lemma engine_sorted (teams : list StoredTeam) (cl cr : option R) (r : R) :
  StronglySorted (key_le sort_key) (proximity_engine teams cl cr r).
Proof. rewrite engine_flat_map. apply list_sort_sorted. Qed.

Lemma engine_annotation (teams : list StoredTeam) (clat clon r : R) (x : NearbyItem) (d : R) :
  In x (proximity_engine teams (Some clat) (Some clon) r) ->
  distance_km x = Some d ->
  exists dist, true_distance clat clon x = Some dist
               /\ dist <= r /\ d = py_round dist 2.
Proof.
  intros Hx Hd. apply engine_In in Hx. destruct Hx as [t [_ Hx]].
  apply visit_inv in Hx. destruct Hx as [[_ Hdoc] [Hn|Hs]]; [congruence|].
  destruct Hs as (clat' & clon' & la & lo & E1 & E2 & Hla & Hlo & Hle & Hk).
  injection E1 as <-. injection E2 as <-.
  exists (spec_distance clat clon la lo).
  unfold true_distance. rewrite Hdoc, Hla, Hlo.
  split; [reflexivity|]. split; [exact Hle|congruence].
Qed.

(** The claim of C1 fails: the farther of two teams is ranked first when
    both distances round to the same value. *)
Lemma C1_counterexample :
  ~ ranked_by_unrounded 0 0 (proximity_engine [near_a; near_b] (Some 0) (Some 0) 10).
Proof.
  rewrite engine_near_pair. intros H.
  specialize (H 0%nat 1%nat (shown near_a (Some 0)) (shown near_b (Some 0))
                (spec_distance 0 0 0 (2 / 100000)) (spec_distance 0 0 0 (1 / 100000))).
  assert (Hle : spec_distance 0 0 0 (2 / 100000) <= spec_distance 0 0 0 (1 / 100000)).
  { apply H; try reflexivity; try (eexists; reflexivity). lia. }
  rewrite !spec_distance_equator in Hle by lra.
  pose proof PI_RGT_0. unfold radians in Hle. lra.
Qed.

(** C1 (amended). The reported distance is the haversine distance rounded
    to two decimals, and the response is in ascending order of the sort
    key, which is that reported (rounded) distance, or 0 for an element
    without one.  So two annotated elements are in the order of their
    rounded distances, and in the order of their unrounded distances
    whenever the rounded ones differ. *)
Theorem C1_ranking_by_reported_distance (teams : list StoredTeam) (clat clon r : R) :
  let out := proximity_engine teams (Some clat) (Some clon) r in
  (forall x d, In x out -> distance_km x = Some d ->
     exists dist, true_distance clat clon x = Some dist /\ d = py_round dist 2)
  /\ (forall (i j : nat) (u v : NearbyItem),
        (i < j)%nat -> out !! i = Some u -> out !! j = Some v ->
        sort_key u <= sort_key v)
  /\ (forall (i j : nat) (u v : NearbyItem) (du dv : R),
        (i < j)%nat -> out !! i = Some u -> out !! j = Some v ->
        is_Some (distance_km u) -> is_Some (distance_km v) ->
        true_distance clat clon u = Some du ->
        true_distance clat clon v = Some dv ->
        py_round du 2 <= py_round dv 2
        /\ (py_round du 2 <> py_round dv 2 -> du < dv)).
Proof.
  intros out. split; [|split].
  - intros x d Hx Hd.
    destruct (engine_annotation _ _ _ _ _ _ Hx Hd) as (dist & H1 & _ & H2).
    exists dist. split; assumption.
  - intros i j u v Hij Hi Hj.
    exact (sorted_lookup sort_key out i j u v (engine_sorted _ _ _ _) Hij Hi Hj).
  - intros i j u v du dv Hij Hi Hj [ku Hku] [kv Hkv] Hdu Hdv.
    pose proof (sorted_lookup sort_key out i j u v (engine_sorted _ _ _ _) Hij Hi Hj) as Hs.
    assert (Hu : In u out) by (apply list_elem_of_In; eapply list_elem_of_lookup_2; exact Hi).
    assert (Hv : In v out) by (apply list_elem_of_In; eapply list_elem_of_lookup_2; exact Hj).
    destruct (engine_annotation _ _ _ _ _ _ Hu Hku) as (du' & Eu & _ & ->).
    destruct (engine_annotation _ _ _ _ _ _ Hv Hkv) as (dv' & Ev & _ & ->).
    assert (du' = du) as -> by congruence. assert (dv' = dv) as -> by congruence.
    unfold sort_key in Hs. rewrite Hku, Hkv in Hs. simpl in Hs.
    split; [exact Hs|]. intros Hne.
    destruct (Rlt_le_dec du dv) as [Hlt|Hge]; [exact Hlt|].
    exfalso. apply Hne. apply Rle_antisym; [exact Hs|].
    apply py_round_mono. exact Hge.
Qed.

(** The claim of C7 fails: a team 2.2 m from the centre, reported at 0.0,
    stays in front of a team without location that was stored after it. *)
Lemma C7_counterexample :
  ~ unlocated_first 0 0 (proximity_engine [near_a; T3] (Some 0) (Some 0) 10).
Proof.
  rewrite engine_near_then_unknown. intros H.
  assert (Hlt : (1 < 0)%nat); [|lia].
  apply (H (shown T3 None) (shown near_a (Some 0)) (spec_distance 0 0 0 (2 / 100000)));
    try reflexivity.
  - eexists; reflexivity.
  - rewrite spec_distance_equator by lra.
    pose proof PI_RGT_0. unfold radians. lra.
Qed.

(** C7 (amended). The response is in ascending order of the sort key: the
    reported (rounded) distance, and 0 for an element without one.  Hence
    an element without a distance comes before every element whose
    reported distance is positive.  Elements with the same key, such as a
    team whose positive distance rounds to 0.0 and the teams without a
    distance, stay in the order in which the loop appended them, which is
    the order of the input. *)
Theorem C7_sorted_by_reported_key (teams : list StoredTeam) (cl cr : option R) (r : R) :
  let out := proximity_engine teams cl cr r in
  StronglySorted (fun x y => sort_key x <= sort_key y) out
  /\ (forall x, distance_km x = None -> sort_key x = 0)
  /\ (forall x d, distance_km x = Some d -> sort_key x = d)
  /\ (forall (u v : NearbyItem) (d : R),
        distance_km u = None -> distance_km v = Some d -> 0 < d ->
        precedes out u v)
  /\ (forall k : R,
        List.filter (Ties.tied_at sort_key k) out
        = List.filter (Ties.tied_at sort_key k)
            (fold_left (nearby_step cl cr r) teams [])).
Proof.
  intros out. split; [apply engine_sorted|].
  split; [intros x Hx; unfold sort_key; rewrite Hx; reflexivity|].
  split; [intros x d Hx; unfold sort_key; rewrite Hx; reflexivity|].
  split.
  - intros u v d Hu Hv Hd i j Hi Hj.
    destruct (Nat.lt_trichotomy i j) as [Hlt|[Heq|Hgt]]; [exact Hlt| |].
    + subst j. rewrite Hi in Hj. injection Hj as ->. congruence.
    + pose proof (sorted_lookup sort_key out j i v u (engine_sorted _ _ _ _) Hgt Hj Hi) as Hs.
      unfold sort_key in Hs. rewrite Hu, Hv in Hs. simpl in Hs. lra.
  - intros k. unfold out, proximity_engine. cbv zeta. apply list_sort_tied.
Qed.

(** C5 as stated fails: a radius outside [1, 100] is not clamped, the
    request is refused. *)
Lemma C5_counterexample :
  nearby_teams (Some (mkDb [T1; T2; T3] true)) None (Some 0) (Some 0) (Some 500)
  = Raise RequestValidationError
  /\ nearby_teams (Some (mkDb [T1; T2; T3] true)) None (Some 0) (Some 0) (Some 500)
     <> Ok (proximity_engine [T1; T2; T3] (Some 0) (Some 0) 100).
Proof.
  assert (E : nearby_teams (Some (mkDb [T1; T2; T3] true)) None (Some 0) (Some 0) (Some 500)
              = Raise RequestValidationError).
  { unfold nearby_teams, Query_range_km.
    destruct (Rle_dec 1 500); [|lra]. destruct (Rle_dec 500 100); [lra|]. reflexivity. }
  split; [exact E|]. rewrite E. discriminate.
Qed.

(** C5 (amended). The radius defaults to 10; a supplied radius in
    [1, 100] is used as it is; a supplied radius outside [1, 100] makes
    the request fail with a validation error, whatever the store holds:
    nothing is clamped. *)
Theorem C5_radius_validated (db : option Db) (sport : option string)
    (cl cr : option R) :
  Query_range_km None = Ok 10
  /\ nearby_teams db sport cl cr None =
     (let! teams := get_documents db (sport_query sport) in
      Ok (proximity_engine teams cl cr 10))
  /\ (forall r : R, 1 <= r <= 100 ->
        Query_range_km (Some r) = Ok r
        /\ nearby_teams db sport cl cr (Some r) =
           (let! teams := get_documents db (sport_query sport) in
            Ok (proximity_engine teams cl cr r)))
  /\ (forall r : R, r < 1 \/ 100 < r ->
        Query_range_km (Some r) = Raise RequestValidationError
        /\ nearby_teams db sport cl cr (Some r) = Raise RequestValidationError).
Proof.
  split; [reflexivity|]. split; [reflexivity|]. split.
  - intros r [H1 H2].
    assert (E : Query_range_km (Some r) = Ok r).
    { unfold Query_range_km. destruct (Rle_dec 1 r); [|lra].
      destruct (Rle_dec r 100); [reflexivity|lra]. }
    split; [exact E|]. unfold nearby_teams. rewrite E. reflexivity.
  - intros r Hr.
    assert (E : Query_range_km (Some r) = Raise RequestValidationError).
    { unfold Query_range_km. destruct (Rle_dec 1 r); [|reflexivity].
      destruct (Rle_dec r 100); [lra|reflexivity]. }
    split; [exact E|]. unfold nearby_teams. rewrite E. reflexivity.
Qed.

End ProximityFacts.

(** ** Theorems: team registration *)

Module RegistrationFacts.
Import Allocator Registration.
Open Scope list_scope.

Lemma existsb_eqb_In (s : string) (l : list string) :
  existsb (String.eqb s) l = true <-> In s l.
Proof.
  rewrite existsb_exists. split.
  - intros [x [Hx Hs]]. apply String.eqb_eq in Hs. subst x. exact Hx.
  - intros H. exists s. split; [exact H|apply String.eqb_refl].
Qed.

Lemma players_in_spec (names : list string) (t : StoredTeam) :
  players_in names t = true <->
  exists p, In p (players (doc t)) /\ In p names.
Proof.
  unfold players_in. rewrite existsb_exists.
  split; intros [p [H1 H2]]; exists p; (split; [exact H1|]);
    apply existsb_eqb_In; exact H2.
Qed.

Lemma find_players_in (payload : TeamCreate.t) (d : Db) :
  player_conflict payload d <->
  exists t, List.find (players_in (TeamCreate.players payload)) (team_collection d) = Some t.
Proof.
  split.
  - intros (t & p & Ht & Hp & Hn).
    destruct (List.find _ _) as [t'|] eqn:E; [exists t'; reflexivity|].
    pose proof (find_none _ _ E t Ht) as Hf.
    assert (Htrue : players_in (TeamCreate.players payload) t = true)
      by (apply players_in_spec; exists p; split; assumption).
    congruence.
  - intros [t E]. apply find_some in E. destruct E as [Ht Hp].
    apply players_in_spec in Hp. destruct Hp as [p [H1 H2]].
    exists t, p. repeat split; assumption.
Qed.

Lemma schema_valid_bool (payload : TeamCreate.t) :
  schema_valid payload <->
  literal Sport (TeamCreate.sport payload)
  && literal ContactPref (TeamCreate.contact_preference payload)
  && forallb (literal TimeSlot) (TeamCreate.availability payload) = true.
Proof.
  unfold schema_valid, literal.
  rewrite !andb_true_iff, forallb_forall, !existsb_eqb_In.
  split.
  - intros (H1 & H2 & H3). repeat split; try assumption.
    intros a Ha. apply existsb_eqb_In, H3, Ha.
  - intros [[H1 H2] H3]. repeat split; try assumption.
    intros a Ha. apply existsb_eqb_In, H3, Ha.
Qed.

Lemma Team_validate_team_of (payload : TeamCreate.t) (tid : string) :
  (schema_valid payload -> Team_validate (team_of payload tid) = Ok (team_of payload tid))
  /\ (~ schema_valid payload -> Team_validate (team_of payload tid) = Raise ValidationError).
Proof.
  rewrite schema_valid_bool. unfold Team_validate, team_of. cbn [sport contact_preference availability].
  destruct (_ && _ && _); split; intros H; try reflexivity; try discriminate.
  exfalso. apply H. reflexivity.
Qed.

Lemma check_passes (payload : TeamCreate.t) (d : Db) :
  reachable d = true -> ~ player_conflict payload d ->
  match TeamCreate.players payload with
  | [] => Ok tt
  | _ :: _ =>
      let! existing := find_one_players_in (Some d) (TeamCreate.players payload) in
      match existing with
      | Some _ => Raise players_taken
      | None => Ok tt
      end
  end = Ok tt.
Proof.
  intros Hr Hc. destruct (TeamCreate.players payload) as [|p ps] eqn:Ep; [reflexivity|].
  unfold find_one_players_in. rewrite Hr. cbn [obind]. rewrite <- Ep.
  destruct (List.find _ _) as [t|] eqn:E; [|reflexivity].
  exfalso. apply Hc. apply find_players_in. exists t. exact E.
Qed.

(** C10 as stated fails: a payload without players whose sport is outside
    the enumeration of [Team] is not rejected with 400, and it is not
    inserted either. *)
Lemma C10_counterexample :
  ~ player_conflict payload_unknown_sport (mkDb [] true)
  /\ register_team "o1" payload_unknown_sport (Some (mkDb [] true))
     = (Raise ValidationError, Some (mkDb [] true))
  /\ ~ registered "o1" payload_unknown_sport (mkDb [] true).
Proof.
  split; [intros (t & p & [] & _)|].
  assert (E : register_team "o1" payload_unknown_sport (Some (mkDb [] true))
              = (Raise ValidationError, Some (mkDb [] true))) by reflexivity.
  split; [exact E|]. unfold registered. cbv zeta. rewrite E. discriminate.
Qed.

(** C10 (amended). With the store answering: when some name of the
    payload already is a player of a stored team, registration raises the
    400 error and the store is unchanged; otherwise it mints the
    identifier and, when the payload's sport, contact preference and
    availability values belong to the enumerations of [Team], appends the
    team to the collection and returns the identifier; when they do not,
    validation fails and the store is unchanged. *)
Theorem C10_register_team (oid : string) (payload : TeamCreate.t) (d : Db) :
  reachable d = true ->
  (player_conflict payload d ->
     TeamCreate.players payload <> []
     /\ register_team oid payload (Some d) = (Raise players_taken, Some d))
  /\ (~ player_conflict payload d -> schema_valid payload ->
        registered oid payload d)
  /\ (~ player_conflict payload d -> ~ schema_valid payload ->
        register_team oid payload (Some d) = (Raise ValidationError, Some d)).
Proof.
  intros Hr. split; [|split].
  - intros Hc. pose proof Hc as (t & p & _ & _ & Hp).
    apply find_players_in in Hc. destruct Hc as [t' E].
    unfold register_team. cbv zeta.
    destruct (TeamCreate.players payload) as [|q qs] eqn:Ep; [destruct Hp|].
    split; [discriminate|].
    unfold find_one_players_in. rewrite Hr. cbn [obind]. rewrite E. reflexivity.
  - intros Hc Hv. unfold registered, register_team. cbv zeta.
    rewrite (check_passes payload d Hr Hc).
    fold (team_of payload (generate_team_id (Some d) (TeamCreate.sport payload))).
    rewrite (proj1 (Team_validate_team_of payload _) Hv).
    unfold create_document. rewrite Hr. reflexivity.
  - intros Hc Hv. unfold register_team. cbv zeta.
    rewrite (check_passes payload d Hr Hc).
    fold (team_of payload (generate_team_id (Some d) (TeamCreate.sport payload))).
    rewrite (proj2 (Team_validate_team_of payload _) Hv). reflexivity.
Qed.

Lemma C10_register_team_witness :
  reachable db_with_asha = true
  /\ player_conflict payload_cricket db_with_asha
  /\ register_team "o2" payload_cricket (Some db_with_asha)
     = (Raise players_taken, Some db_with_asha).
Proof.
  assert (Hc : player_conflict payload_cricket db_with_asha).
  { unfold player_conflict, db_with_asha, payload_cricket.
    eexists _, "asha". cbn [team_collection TeamCreate.players].
    split; [left; reflexivity|]. split; left; reflexivity. }
  split; [reflexivity|]. split; [exact Hc|].
  exact (proj2 (proj1 (C10_register_team "o2" payload_cricket db_with_asha eq_refl) Hc)).
Defined.

End RegistrationFacts.

(** ** Further properties: distance and discovery *)

Module DiscoveryFacts.
Import Geo GeoFacts Proximity ProximityFacts Teams.
Open Scope R_scope.
Open Scope list_scope.

Lemma spec_a_same_point (lat lon : R) : spec_a lat lon lat lon = 0.
Proof.
  unfold spec_a. cbv zeta.
  replace (radians (lat - lat) / 2) with 0 by (unfold radians; lra).
  replace (radians (lon - lon) / 2) with 0 by (unfold radians; lra).
  rewrite sin_0. ring.
Qed.

(** X1. The distance from a point to itself is 0, for all coordinates. *)
Theorem haversine_same_point (lat lon : R) : haversine lat lon lat lon = Ok 0.
Proof.
  rewrite haversine_value, spec_a_same_point, sqrt_0, asin_0.
  f_equal. ring.
Qed.

Lemma asin_nonneg (x : R) : 0 <= x <= 1 -> 0 <= asin x.
Proof.
  intros Hx. destruct (Rle_lt_dec 0 (asin x)) as [H|H]; [exact H|].
  exfalso. pose proof (asin_bound x) as Hb. pose proof PI_RGT_0 as Hpi.
  assert (Hs : sin (asin x) < 0) by (apply sin_lt_0_var; lra).
  rewrite sin_asin in Hs by lra. lra.
Qed.


(** X2. Whenever [haversine] returns a distance, it lies between 0 and
    half the circumference of the sphere of radius 6371 km. *)
Theorem haversine_range (lat1 lon1 lat2 lon2 d : R) :
  haversine lat1 lon1 lat2 lon2 = Ok d -> 0 <= d <= 6371 * PI.
Proof.
  unfold haversine. cbv zeta. unfold math_sqrt, math_asin.
  destruct (Rlt_dec _ 0) as [|Ha]; [discriminate|]. cbn [obind].
  destruct (Rlt_dec _ (-1)); [discriminate|].
  destruct (Rlt_dec 1 _) as [|Hs]; [discriminate|]. cbn [obind].
  intros [= <-].
  match goal with |- context [asin ?q] => set (x := q) in * end.
  assert (Hx : 0 <= x <= 1) by (split; [apply sqrt_pos|apply Rnot_lt_le; exact Hs]).
  pose proof (asin_nonneg x Hx). pose proof (asin_bound x).
  split; lra.
Qed.

Lemma haversine_range_witness : 0 <= spec_distance 0 0 0 1 <= 6371 * PI.
Proof.
  exact (haversine_range 0 0 0 1 _ (haversine_spec_distance 0 0 0 1)).
Defined.



Lemma py_round_0 (n : nat) : py_round 0 n = 0.
Proof.
  unfold py_round, round_half_even. cbv zeta. rewrite Rmult_0_l.
  rewrite Int_part_unit by lra.
  destruct (Rlt_dec (0 - 0) (1 / 2)); [|lra].
  unfold Rdiv. apply Rmult_0_l.
Qed.



Lemma visit_length (cl cr : option R) (r : R) (t : StoredTeam) :
  (length (visit cl cr r t) <= 1)%nat.
Proof.
  destruct (latitude (doc t)) as [la|] eqn:Hla;
    [destruct (longitude (doc t)) as [lo|] eqn:Hlo|];
    try (rewrite visit_unknown by (auto; fail); simpl; lia).
  destruct cl as [clat|]; [destruct cr as [clon|]|];
    try (rewrite visit_no_center by (auto; fail); simpl; lia).
  rewrite (visit_known clat clon r la lo t Hla Hlo).
  destruct (Rle_dec _ r); simpl; lia.
Qed.

(** X4. The response never has more elements than teams were read, and
    each element stands for one of them. *)
Theorem engine_selects_from_input (teams : list StoredTeam) (cl cr : option R) (r : R) :
  (length (proximity_engine teams cl cr r) <= length teams)%nat
  /\ (forall x, In x (proximity_engine teams cl cr r) ->
        exists t, In t teams /\ represents x t).
Proof.
  split.
  - rewrite engine_flat_map, (Permutation_length (list_sort_perm sort_key _)).
    induction teams as [|t teams IH]; simpl; [lia|].
    rewrite length_app. pose proof (visit_length cl cr r t). lia.
  - intros x Hx. apply engine_In in Hx. destruct Hx as [t [Ht Hx]].
    exists t. split; [exact Ht|]. apply (visit_inv _ _ _ _ _ Hx).
Qed.

(** X6. Widening the radius never drops an element of the response. *)
Theorem radius_monotone (teams : list StoredTeam) (cl cr : option R) (r r' : R) (x : NearbyItem) :
  r <= r' ->
  In x (proximity_engine teams cl cr r) ->
  In x (proximity_engine teams cl cr r').
Proof.
  intros Hr Hx. apply engine_In in Hx. destruct Hx as [t [Ht Hx]].
  apply engine_In. exists t. split; [exact Ht|].
  destruct (latitude (doc t)) as [la|] eqn:Hla;
    [destruct (longitude (doc t)) as [lo|] eqn:Hlo|].
  - destruct cl as [clat|]; [destruct cr as [clon|]|].
    + rewrite (visit_known clat clon r la lo t Hla Hlo) in Hx.
      rewrite (visit_known clat clon r' la lo t Hla Hlo).
      destruct (Rle_dec _ r) as [H|H]; [|destruct Hx].
      destruct (Rle_dec _ r') as [H'|H']; [exact Hx|lra].
    + rewrite visit_no_center in Hx by (right; reflexivity).
      rewrite visit_no_center by (right; reflexivity). exact Hx.
    + rewrite visit_no_center in Hx by (left; reflexivity).
      rewrite visit_no_center by (left; reflexivity). exact Hx.
  - rewrite visit_unknown in Hx by (right; exact Hlo).
    rewrite visit_unknown by (right; exact Hlo). exact Hx.
  - rewrite visit_unknown in Hx by (left; exact Hla).
    rewrite visit_unknown by (left; exact Hla). exact Hx.
Qed.

Lemma radius_monotone_witness :
  In (shown T1 (Some 0)) (proximity_engine [T1; T2; T3] (Some 0) (Some 0) 100).
Proof.
  apply (radius_monotone [T1; T2; T3] (Some 0) (Some 0) 50 100); [lra|].
  rewrite engine_spec_example. left. reflexivity.
Defined.

(** X7. A team stored at the query centre is always in the response,
    reported at distance 0. *)
Theorem center_team_included (teams : list StoredTeam) (clat clon r : R) (t : StoredTeam) :
  In t teams ->
  latitude (doc t) = Some clat -> longitude (doc t) = Some clon ->
  0 <= r ->
  In (set_distance_km (stringify_id t) 0) (proximity_engine teams (Some clat) (Some clon) r).
Proof.
  intros Ht Hla Hlo Hr. apply engine_In. exists t. split; [exact Ht|].
  rewrite (visit_known clat clon r clat clon t Hla Hlo).
  unfold spec_distance. rewrite spec_a_same_point, sqrt_0, asin_0.
  replace (2 * 6371 * 0) with 0 by ring.
  destruct (Rle_dec 0 r); [|contradiction].
  rewrite py_round_0. left. reflexivity.
Qed.

Lemma center_team_included_witness :
  In (set_distance_km (stringify_id T1) 0)
     (proximity_engine [T1; T2; T3] (Some 0) (Some 0) 1).
Proof.
  apply (center_team_included [T1; T2; T3] 0 0 1 T1);
    [left; reflexivity|reflexivity|reflexivity|lra].
Defined.

(** X8. Without a centre, [/nearby] answers exactly as [/teams] does,
    whatever valid radius is supplied. *)
Theorem nearby_without_center_is_list_teams (db : option Db) (sport : option string)
    (cl cr : option R) (range_km : option R) (r : R) :
  cl = None \/ cr = None ->
  Query_range_km range_km = Ok r ->
  nearby_teams db sport cl cr range_km = list_teams db sport.
Proof.
  intros Hc Hq. unfold nearby_teams, list_teams. rewrite Hq. cbn [obind]. cbv zeta.
  destruct (get_documents db (sport_query sport)) as [teams|e]; [|reflexivity].
  cbn [obind]. f_equal.
  rewrite engine_flat_map, flat_map_no_center by exact Hc.
  apply list_sort_id. apply (sorted_const_key sort_key 0).
  intros x Hx. apply in_map_iff in Hx. destruct Hx as [t [<- _]]. reflexivity.
Qed.

Lemma nearby_without_center_is_list_teams_witness :
  nearby_teams (Some (mkDb [T1; T2; T3] true)) (Some "cricket") None None None
  = list_teams (Some (mkDb [T1; T2; T3] true)) (Some "cricket").
Proof.
  apply (nearby_without_center_is_list_teams _ _ None None None 10).
  - left. reflexivity.
  - reflexivity.
Defined.

(** X5. The final sort is stable: for every value of the sort key, the
    elements of the response with that key are the elements the loop
    appended with that key, in the order it appended them. *)
Theorem engine_sort_stable (teams : list StoredTeam) (cl cr : option R) (r k : R) :
  List.filter (Ties.tied_at sort_key k) (proximity_engine teams cl cr r)
  = List.filter (Ties.tied_at sort_key k) (fold_left (nearby_step cl cr r) teams []).
Proof. unfold proximity_engine. cbv zeta. apply list_sort_tied. Qed.



End DiscoveryFacts.

(** ** Further properties: identifiers and the team collection *)

Module RegistryFacts.
Import Allocator AllocatorFacts Proximity Registration RegistrationFacts Teams.
Open Scope string_scope.

(** The three ways a request ends when the store answers. *)
Lemma register_team_cases (oid : string) (payload : TeamCreate.t) (d : Db) :
  reachable d = true ->
  (player_conflict payload d
   /\ register_team oid payload (Some d) = (Raise players_taken, Some d))
  \/ (~ player_conflict payload d /\ ~ schema_valid payload
      /\ register_team oid payload (Some d) = (Raise ValidationError, Some d))
  \/ (~ player_conflict payload d /\ schema_valid payload
      /\ registered oid payload d).
Proof.
  intros Hr.
  destruct (List.find (players_in (TeamCreate.players payload)) (team_collection d))
    as [t|] eqn:E.
  - left. assert (Hc : player_conflict payload d)
      by (apply find_players_in; exists t; exact E).
    split; [exact Hc|].
    destruct Hc as (t0 & p & _ & _ & Hp).
    unfold register_team. cbv zeta.
    destruct (TeamCreate.players payload) as [|q qs] eqn:Ep; [destruct Hp|].
    unfold find_one_players_in. rewrite Hr. cbn [obind]. rewrite E. reflexivity.
  - right.
    assert (Hc : ~ player_conflict payload d).
    { intros Hc. apply find_players_in in Hc. destruct Hc as [t Ht]. congruence. }
    destruct (literal Sport (TeamCreate.sport payload)
              && literal ContactPref (TeamCreate.contact_preference payload)
              && forallb (literal TimeSlot) (TeamCreate.availability payload)) eqn:Ev.
    + right. apply schema_valid_bool in Ev.
      split; [exact Hc|]. split; [exact Ev|].
      unfold registered, register_team. cbv zeta.
      rewrite (check_passes payload d Hr Hc).
      fold (team_of payload (generate_team_id (Some d) (TeamCreate.sport payload))).
      rewrite (proj1 (Team_validate_team_of payload _) Ev).
      unfold create_document. rewrite Hr. reflexivity.
    + left.
      assert (Hv : ~ schema_valid payload)
        by (intros Hv; apply schema_valid_bool in Hv; congruence).
      split; [exact Hc|]. split; [exact Hv|].
      unfold register_team. cbv zeta.
      rewrite (check_passes payload d Hr Hc).
      fold (team_of payload (generate_team_id (Some d) (TeamCreate.sport payload))).
      rewrite (proj2 (Team_validate_team_of payload _) Hv). reflexivity.
Qed.

Lemma register_team_unavailable (oid : string) (payload : TeamCreate.t) (db : option Db) :
  db = None \/ (exists d, db = Some d /\ reachable d = false) ->
  exists e, register_team oid payload db = (Raise e, db).
Proof.
  intros Hdb. unfold register_team. cbv zeta.
  destruct (TeamCreate.players payload) as [|q qs].
  - destruct (Team_validate _) as [x|e]; [|exists e; reflexivity].
    destruct Hdb as [->|[d [-> Hr]]]; unfold create_document.
    + exists StorageError. reflexivity.
    + rewrite Hr. exists StorageError. reflexivity.
  - destruct Hdb as [->|[d [-> Hr]]]; unfold find_one_players_in.
    + exists TypeError. reflexivity.
    + rewrite Hr. exists StorageError. reflexivity.
Qed.

Lemma register_team_success (oid : string) (payload : TeamCreate.t) (db db' : option Db)
    (resp : RegisterResponse) :
  register_team oid payload db = (Ok resp, db') ->
  exists d,
    db = Some d /\ reachable d = true
    /\ ~ player_conflict payload d /\ schema_valid payload
    /\ resp = mkResponse true (generate_team_id (Some d) (TeamCreate.sport payload)) oid
    /\ db' = Some (mkDb (team_collection d
                         ++ [mkStored (Some oid)
                               (team_of payload
                                  (generate_team_id (Some d) (TeamCreate.sport payload)))])%list
                        true).
Proof.
  intros H.
  destruct db as [d|].
  - destruct (reachable d) eqn:Hr.
    + destruct (register_team_cases oid payload d Hr)
        as [[_ E]|[(_ & _ & E)|(Hc & Hv & E)]];
        try (rewrite E in H; discriminate).
      unfold registered in E. cbv zeta in E. rewrite E in H.
      injection H as <- <-. exists d.
      split; [reflexivity|]. split; [exact Hr|]. split; [exact Hc|].
      split; [exact Hv|]. split; reflexivity.
    + destruct (register_team_unavailable oid payload (Some d)) as [e E];
        [right; exists d; split; [reflexivity|exact Hr]|].
      rewrite E in H. discriminate.
  - destruct (register_team_unavailable oid payload None) as [e E]; [left; reflexivity|].
    rewrite E in H. discriminate.
Qed.

Lemma register_team_failure (oid : string) (payload : TeamCreate.t) (db db' : option Db)
    (e : exn) :
  register_team oid payload db = (Raise e, db') -> db' = db.
Proof.
  intros H.
  destruct db as [d|].
  - destruct (reachable d) eqn:Hr.
    + destruct (register_team_cases oid payload d Hr)
        as [[_ E]|[(_ & _ & E)|(Hc & Hv & E)]];
        try (rewrite E in H; injection H as _ <-; reflexivity).
      unfold registered in E. cbv zeta in E. rewrite E in H. discriminate.
    + destruct (register_team_unavailable oid payload (Some d)) as [e' E];
        [right; exists d; split; [reflexivity|exact Hr]|].
      rewrite E in H. injection H as _ <-. reflexivity.
  - destruct (register_team_unavailable oid payload None) as [e' E]; [left; reflexivity|].
    rewrite E in H. injection H as _ <-. reflexivity.
Qed.

(** X10. A request either fails and leaves the collection as it was, or
    succeeds and appends exactly one document, which carries the returned
    [team_id], the returned [id] as its [_id], and the fields of the
    payload; no stored document is changed or removed. *)
Theorem register_team_effect (oid : string) (payload : TeamCreate.t) (db db' : option Db)
    (r : outcome RegisterResponse) :
  register_team oid payload db = (r, db') ->
  (exists e, r = Raise e /\ db' = db)
  \/ (exists d resp new,
        r = Ok resp /\ db = Some d
        /\ db' = Some (mkDb (team_collection d ++ [new])%list true)
        /\ _id new = Some (resp_id resp)
        /\ doc new = team_of payload (resp_team_id resp)
        /\ ok resp = true).
Proof.
  intros H. destruct r as [resp|e].
  - right. apply register_team_success in H.
    destruct H as (d & -> & Hr & _ & _ & -> & ->).
    eexists d, _, _. repeat split; reflexivity.
  - left. exists e. split; [reflexivity|]. eapply register_team_failure. exact H.
Qed.

Lemma register_team_effect_witness :
  (exists e, @Raise RegisterResponse players_taken = Raise e
             /\ Some db_with_asha = Some db_with_asha)
  \/ (exists d resp new,
        @Raise RegisterResponse players_taken = Ok resp /\ Some db_with_asha = Some d
        /\ Some db_with_asha = Some (mkDb (team_collection d ++ [new])%list true)
        /\ _id new = Some (resp_id resp)
        /\ doc new = team_of payload_cricket (resp_team_id resp)
        /\ ok resp = true).
Proof.
  apply (register_team_effect "o2" payload_cricket (Some db_with_asha)).
  reflexivity.
Defined.

Lemma rosters_disjoint_app (l : list StoredTeam) (x : StoredTeam) :
  rosters_disjoint l ->
  (forall u p, In u l -> In p (players (doc u)) -> ~ In p (players (doc x))) ->
  rosters_disjoint (l ++ [x])%list.
Proof.
  induction 1 as [|t l Ht Hl IH]; intros Hx; cbn.
  - constructor; [intros u p []|constructor].
  - constructor.
    + intros u p Hu Hp. apply in_app_iff in Hu. destruct Hu as [Hu|[<-|[]]].
      * apply (Ht u p Hu Hp).
      * apply (Hx t p); [left; reflexivity|exact Hp].
    + apply IH. intros u p Hu. apply Hx. right. exact Hu.
Qed.

(** X12. Registration keeps the rosters of the stored teams disjoint: if
    no player name is on two stored rosters before a request, none is
    after it, whether the request succeeds or fails. *)
Theorem register_team_keeps_rosters_disjoint (oid : string) (payload : TeamCreate.t)
    (d d' : Db) (r : outcome RegisterResponse) :
  register_team oid payload (Some d) = (r, Some d') ->
  rosters_disjoint (team_collection d) ->
  rosters_disjoint (team_collection d').
Proof.
  intros H Hd. destruct r as [resp|e].
  - apply register_team_success in H.
    destruct H as (d0 & [= <-] & Hr & Hc & _ & _ & [= ->]).
    cbn [team_collection]. apply rosters_disjoint_app; [exact Hd|].
    intros u p Hu Hp Hx. apply Hc. exists u, p. repeat split; assumption.
  - apply register_team_failure in H. injection H as ->. exact Hd.
Qed.

Lemma register_team_keeps_rosters_disjoint_witness :
  register_team "o3" Posts.payload_lions (Some db_with_asha)
  = (Ok (mkResponse true "CRK-100" "o3"), Some Posts.db_asha_lions)
  /\ rosters_disjoint (team_collection db_with_asha)
  /\ rosters_disjoint (team_collection Posts.db_asha_lions).
Proof.
  assert (H0 : rosters_disjoint (team_collection db_with_asha))
    by (constructor; [intros u p []|constructor]).
  split; [reflexivity|]. split; [exact H0|].
  exact (register_team_keeps_rosters_disjoint "o3" Posts.payload_lions
           db_with_asha Posts.db_asha_lions
           (Ok (mkResponse true "CRK-100" "o3")) eq_refl H0).
Defined.

Lemma get_team_find (d : Db) (tid : string) :
  reachable d = true ->
  get_team (Some d) tid =
  match List.find (has_team_id tid) (team_collection d) with
  | Some t => Ok (stringify_id t)
  | None => Raise team_not_found
  end.
Proof. intros Hr. unfold get_team, find_one_team_id. rewrite Hr. reflexivity. Qed.

Lemma find_app_last {A : Type} (p : A -> bool) (l : list A) (x : A) :
  List.find p (l ++ [x])%list =
  match List.find p l with
  | Some y => Some y
  | None => if p x then Some x else None
  end.
Proof.
  induction l as [|y l IH]; cbn; [reflexivity|].
  destruct (p y); [reflexivity|exact IH].
Qed.

Lemma count_team_id_0 (tid : string) (l : list StoredTeam) :
  count_team_id tid l = 0%nat <-> List.find (has_team_id tid) l = None.
Proof.
  unfold count_team_id. induction l as [|t l IH]; cbn; [tauto|].
  destruct (has_team_id tid t); cbn; [split; discriminate|exact IH].
Qed.

(** X11. Identifiers are shared within a sport.  When two registrations
    of the same sport succeed one after the other, the second returns
    the [team_id] the first returned, and [get_team] with that
    identifier still answers what it answered before the second
    registration: it does not return the second team. *)
Theorem team_id_shared_within_sport (oid1 oid2 : string) (p1 p2 : TeamCreate.t)
    (db db1 db2 : option Db) (resp1 resp2 : RegisterResponse) :
  register_team oid1 p1 db = (Ok resp1, db1) ->
  register_team oid2 p2 db1 = (Ok resp2, db2) ->
  TeamCreate.sport p2 = TeamCreate.sport p1 ->
  resp_team_id resp2 = resp_team_id resp1
  /\ get_team db2 (resp_team_id resp2) = get_team db1 (resp_team_id resp1)
  /\ exists x, get_team db1 (resp_team_id resp1) = Ok x
               /\ team_id (item x) = resp_team_id resp1.
Proof.
  intros H1 H2 Hs.
  apply register_team_success in H1.
  destruct H1 as (d & -> & Hr & _ & _ & -> & ->).
  apply register_team_success in H2.
  destruct H2 as (d1 & [= <-] & _ & _ & _ & -> & ->).
  cbn [resp_team_id].
  rewrite !generate_team_id_value, Hs.
  set (tid := spec_prefix (TeamCreate.sport p1) ++ "-100").
  split; [reflexivity|].
  rewrite !get_team_find by reflexivity. cbn [team_collection].
  rewrite (find_app_last _ (team_collection d ++ _)%list), find_app_last.
  assert (Hnew : has_team_id tid (mkStored (Some oid1) (team_of p1 tid)) = true)
    by apply String.eqb_refl.
  rewrite Hnew.
  destruct (List.find (has_team_id tid) (team_collection d)) as [t|] eqn:E.
  - split; [reflexivity|]. exists (stringify_id t). split; [reflexivity|].
    apply find_some in E. destruct E as [_ E]. apply String.eqb_eq in E. exact E.
  - split; [reflexivity|]. eexists. split; reflexivity.
Qed.

Lemma team_id_shared_within_sport_witness :
  "CRK-100" = "CRK-100"
  /\ get_team (snd (register_team "o4" Posts.payload_tigers (Some Posts.db_asha_lions)))
              "CRK-100"
     = get_team (Some Posts.db_asha_lions) "CRK-100"
  /\ exists x, get_team (Some Posts.db_asha_lions) "CRK-100" = Ok x
               /\ team_id (item x) = "CRK-100".
Proof.
  exact (team_id_shared_within_sport "o3" "o4" Posts.payload_lions Posts.payload_tigers
           (Some db_with_asha) (Some Posts.db_asha_lions)
           (snd (register_team "o4" Posts.payload_tigers (Some Posts.db_asha_lions)))
           (mkResponse true "CRK-100" "o3") (mkResponse true "CRK-100" "o4")
           eq_refl eq_refl eq_refl).
Defined.

(** X13. After a successful registration, [get_team] with the returned
    [team_id] finds a team with that identifier; when no stored team
    carried the identifier before, it is the team just registered, with
    the returned [id]. *)
Theorem register_then_get_team (oid : string) (payload : TeamCreate.t) (db db' : option Db)
    (resp : RegisterResponse) :
  register_team oid payload db = (Ok resp, db') ->
  (exists x, get_team db' (resp_team_id resp) = Ok x
             /\ team_id (item x) = resp_team_id resp)
  /\ (forall d, db = Some d ->
        count_team_id (resp_team_id resp) (team_collection d) = 0%nat ->
        get_team db' (resp_team_id resp)
        = Ok (mkItem (resp_id resp) (team_of payload (resp_team_id resp)) None)).
Proof.
  intros H. apply register_team_success in H.
  destruct H as (d & -> & Hr & _ & _ & -> & ->).
  cbn [resp_team_id resp_id].
  set (tid := generate_team_id (Some d) (TeamCreate.sport payload)).
  rewrite get_team_find by reflexivity. cbn [team_collection].
  rewrite find_app_last.
  assert (Hnew : has_team_id tid (mkStored (Some oid) (team_of payload tid)) = true)
    by apply String.eqb_refl.
  rewrite Hnew. split.
  - destruct (List.find (has_team_id tid) (team_collection d)) as [t|] eqn:E.
    + exists (stringify_id t). split; [reflexivity|].
      apply find_some in E. destruct E as [_ E]. apply String.eqb_eq in E. exact E.
    + eexists. split; reflexivity.
  - intros d0 [= <-] Hc. apply count_team_id_0 in Hc. rewrite Hc. reflexivity.
Qed.

Lemma register_then_get_team_witness :
  exists x,
    get_team (snd (register_team "o1" payload_cricket (Some db_empty))) "CRK-100" = Ok x
    /\ team_id (item x) = "CRK-100".
Proof.
  exact (proj1 (register_then_get_team "o1" payload_cricket (Some db_empty)
                  (snd (register_team "o1" payload_cricket (Some db_empty)))
                  (mkResponse true "CRK-100" "o1") eq_refl)).
Defined.

End RegistryFacts.

(** ** Further properties: lookup and removal *)

Module RemovalFacts.
Import Allocator AllocatorFacts Proximity Registration RegistrationFacts Teams RegistryFacts.
Open Scope string_scope.

Lemma delete_one_none {A : Type} (p : A -> bool) (l : list A) :
  List.find p l = None -> delete_one p l = (l, 0%nat).
Proof.
  induction l as [|x l IH]; cbn; [reflexivity|].
  destruct (p x); [discriminate|]. intros H. rewrite (IH H). reflexivity.
Qed.

Lemma delete_one_some {A : Type} (p : A -> bool) (l : list A) (t : A) :
  List.find p l = Some t ->
  exists l1 l2,
    l = (l1 ++ t :: l2)%list
    /\ List.find p l1 = None
    /\ p t = true
    /\ delete_one p l = ((l1 ++ l2)%list, 1%nat).
Proof.
  induction l as [|x l IH]; cbn; [discriminate|].
  destruct (p x) eqn:Hx.
  - intros [= <-]. exists [], l. repeat split; try reflexivity. exact Hx.
  - intros H. destruct (IH H) as (l1 & l2 & -> & Hn & Ht & ->).
    exists (x :: l1), l2. cbn. rewrite Hx. repeat split; assumption.
Qed.

Lemma find_none_filter {A : Type} (p : A -> bool) (l : list A) :
  List.find p l = None -> List.filter p l = [].
Proof.
  induction l as [|x l IH]; cbn; [reflexivity|].
  destruct (p x); [discriminate|exact IH].
Qed.

Lemma admin_delete_team_found (d : Db) (tid : string) (t : StoredTeam) :
  reachable d = true ->
  List.find (has_team_id tid) (team_collection d) = Some t ->
  exists l1 l2,
    team_collection d = (l1 ++ t :: l2)%list
    /\ List.find (has_team_id tid) l1 = None
    /\ has_team_id tid t = true
    /\ admin_delete_team (Some d) tid = (Ok true, Some (mkDb (l1 ++ l2)%list true)).
Proof.
  intros Hr E. unfold admin_delete_team. rewrite Hr.
  destruct (delete_one_some _ _ _ E) as (l1 & l2 & Hl & Hn & Ht & ->).
  exists l1, l2. repeat split; assumption.
Qed.

Lemma admin_delete_team_missing (d : Db) (tid : string) :
  reachable d = true ->
  List.find (has_team_id tid) (team_collection d) = None ->
  admin_delete_team (Some d) tid = (Ok false, Some (mkDb (team_collection d) true)).
Proof.
  intros Hr E. unfold admin_delete_team. rewrite Hr, (delete_one_none _ _ E). reflexivity.
Qed.

Lemma count_team_id_remove (tid : string) (l1 l2 : list StoredTeam) (t : StoredTeam) :
  has_team_id tid t = true ->
  count_team_id tid (l1 ++ t :: l2)%list = S (count_team_id tid (l1 ++ l2)%list).
Proof.
  intros Ht. unfold count_team_id.
  rewrite !List.filter_app, !length_app. cbn [List.filter]. rewrite Ht. cbn. lia.
Qed.

(** X14. Removal by identifier.  Either some stored team carries the
    identifier: then the flag is true and the collection loses exactly
    its first document with the identifier, every other document staying
    in place; or none does: then the flag is false and the collection is
    unchanged. *)
Theorem admin_delete_team_effect (d : Db) (tid : string) :
  reachable d = true ->
  (exists l1 t l2,
      team_collection d = (l1 ++ t :: l2)%list
      /\ team_id (doc t) = tid
      /\ (forall u, In u l1 -> team_id (doc u) <> tid)
      /\ admin_delete_team (Some d) tid = (Ok true, Some (mkDb (l1 ++ l2)%list true)))
  \/ ((forall u, In u (team_collection d) -> team_id (doc u) <> tid)
      /\ admin_delete_team (Some d) tid = (Ok false, Some (mkDb (team_collection d) true))).
Proof.
  intros Hr.
  assert (Hnone : forall l, List.find (has_team_id tid) l = None ->
                  forall u, In u l -> team_id (doc u) <> tid).
  { intros l E u Hu Ht. pose proof (find_none _ _ E u Hu) as Hf.
    unfold has_team_id in Hf. rewrite Ht, String.eqb_refl in Hf. discriminate. }
  destruct (List.find (has_team_id tid) (team_collection d)) as [t|] eqn:E.
  - left. destruct (admin_delete_team_found d tid t Hr E) as (l1 & l2 & Hl & Hn & Ht & Hd).
    exists l1, t, l2. split; [exact Hl|].
    split; [apply String.eqb_eq; exact Ht|].
    split; [apply Hnone; exact Hn|exact Hd].
  - right. split; [apply Hnone; exact E|].
    apply admin_delete_team_missing; assumption.
Qed.

Lemma admin_delete_team_effect_witness :
  (exists l1 t l2,
      team_collection Posts.db_asha_lions = (l1 ++ t :: l2)%list
      /\ team_id (doc t) = "CRK-100"
      /\ (forall u, In u l1 -> team_id (doc u) <> "CRK-100")
      /\ admin_delete_team (Some Posts.db_asha_lions) "CRK-100"
         = (Ok true, Some (mkDb (l1 ++ l2)%list true)))
  \/ ((forall u, In u (team_collection Posts.db_asha_lions) -> team_id (doc u) <> "CRK-100")
      /\ admin_delete_team (Some Posts.db_asha_lions) "CRK-100"
         = (Ok false, Some (mkDb (team_collection Posts.db_asha_lions) true))).
Proof. exact (admin_delete_team_effect Posts.db_asha_lions "CRK-100" eq_refl). Defined.

(** X15. [get_team] answers 404 exactly when no stored team carries the
    identifier, and otherwise returns the first stored team with it; so
    after a removal the identifier is still found exactly when two or
    more teams carried it. *)
Theorem get_team_after_delete (d : Db) (tid : string) :
  reachable d = true ->
  (get_team (Some d) tid = Raise team_not_found
   <-> count_team_id tid (team_collection d) = 0%nat)
  /\ (forall x, get_team (Some d) tid = Ok x -> team_id (item x) = tid)
  /\ (get_team (snd (admin_delete_team (Some d) tid)) tid = Raise team_not_found
      <-> (count_team_id tid (team_collection d) <= 1)%nat).
Proof.
  intros Hr.
  assert (G : forall d0, reachable d0 = true ->
            (get_team (Some d0) tid = Raise team_not_found
             <-> count_team_id tid (team_collection d0) = 0%nat)).
  { intros d0 Hr0. rewrite (get_team_find d0 tid Hr0), count_team_id_0.
    destruct (List.find _ _); split; intros H; try discriminate; reflexivity. }
  split; [apply G; exact Hr|]. split.
  - intros x. rewrite (get_team_find d tid Hr).
    destruct (List.find _ _) as [t|] eqn:E; [|discriminate].
    intros [= <-]. apply find_some in E. destruct E as [_ E].
    apply String.eqb_eq in E. exact E.
  - destruct (List.find (has_team_id tid) (team_collection d)) as [t|] eqn:E.
    + destruct (admin_delete_team_found d tid t Hr E) as (l1 & l2 & Hl & _ & Ht & Hd).
      rewrite Hd. cbn [snd]. rewrite (G (mkDb (l1 ++ l2)%list true) eq_refl).
      cbn [team_collection]. rewrite Hl, (count_team_id_remove tid l1 l2 t Ht). lia.
    + rewrite (admin_delete_team_missing d tid Hr E). cbn [snd].
      rewrite (G (mkDb (team_collection d) true) eq_refl). cbn [team_collection].
      apply count_team_id_0 in E. rewrite E. lia.
Qed.

Lemma get_team_after_delete_witness :
  get_team (snd (admin_delete_team (Some db_with_asha) "CRK-100")) "CRK-100"
  = Raise team_not_found.
Proof.
  apply (proj2 (proj2 (get_team_after_delete db_with_asha "CRK-100" eq_refl))).
  cbn. lia.
Defined.

End RemovalFacts.

(** ** Further properties: match posts, chat and statistics *)

Module PostsFacts.
Import Allocator AllocatorFacts Proximity Registration RegistrationFacts Teams
       RegistryFacts RemovalFacts Posts.
Open Scope string_scope.

Lemma find_one_team_id_cases (db : option Database) (tid : string) :
  (exists e, find_one_team_id (teams_of db) tid = Raise e)
  \/ (exists b, db = Some b /\ reachable (team b) = true
                /\ find_one_team_id (teams_of db) tid
                   = Ok (List.find (has_team_id tid) (team_collection (team b)))).
Proof.
  destruct db as [b|]; cbn; [|left; eexists; reflexivity].
  destruct (reachable (team b)) eqn:Hr; [|left; eexists; reflexivity].
  right. exists b. repeat split. exact Hr.
Qed.

(** X17. A match post is stored only for an existing team and a payload
    that passes the validation of [Matchpost]; the stored post carries
    the location of the first stored team with the identifier, and the
    returned [id] is its [_id].  The teams and the messages are never
    touched, and a failed request stores nothing. *)
Theorem create_match_post_effect (oid : string) (payload : MatchCreate.t)
    (db db' : option Database) (r : outcome string) :
  create_match_post oid payload db = (r, db') ->
  (exists e, r = Raise e /\ db' = db)
  \/ (exists b t post,
        r = Ok oid /\ db = Some b
        /\ db' = Some (mkDatabase (team b) (matchpost b ++ [(oid, post)])%list (message b))
        /\ List.find (has_team_id (MatchCreate.team_id payload)) (team_collection (team b))
           = Some t
        /\ Matchpost.team_id post = MatchCreate.team_id payload
        /\ Matchpost.location_name post = location_name (doc t)
        /\ Matchpost.latitude post = latitude (doc t)
        /\ Matchpost.longitude post = longitude (doc t)
        /\ In (Matchpost.sport post) Sport
        /\ In (Matchpost.time_pref post) TimeSlot
        /\ (1 <= Matchpost.num_players post)%Z).
Proof.
  unfold create_match_post. cbv zeta.
  destruct (find_one_team_id_cases db (MatchCreate.team_id payload))
    as [[e E]|(b & -> & Hr & E)]; rewrite E.
  - intros [= <- <-]. left. exists e. split; reflexivity.
  - destruct (List.find _ _) as [t|] eqn:Ef.
    2:{ intros [= <- <-]. left. eexists. split; reflexivity. }
    unfold Matchpost_validate. cbn [Matchpost.sport Matchpost.num_players Matchpost.time_pref].
    destruct (literal Sport (MatchCreate.sport payload)) eqn:H1;
      [|intros [= <- <-]; left; eexists; split; reflexivity].
    destruct (1 <=? MatchCreate.num_players payload)%Z eqn:H2;
      [|intros [= <- <-]; left; eexists; split; reflexivity].
    destruct (literal TimeSlot (MatchCreate.time_pref payload)) eqn:H3;
      [|intros [= <- <-]; left; eexists; split; reflexivity].
    cbn [andb]. unfold create_matchpost_document. rewrite Hr.
    intros [= <- <-]. right. eexists b, t, _.
    split; [reflexivity|]. split; [reflexivity|]. split; [reflexivity|].
    split; [exact Ef|].
    cbn [Matchpost.team_id Matchpost.location_name Matchpost.latitude
         Matchpost.longitude Matchpost.sport Matchpost.time_pref Matchpost.num_players].
    repeat (split; [reflexivity|]).
    split; [apply existsb_eqb_In; exact H1|].
    split; [apply existsb_eqb_In; exact H3|].
    apply Z.leb_le. exact H2.
Qed.

Lemma create_match_post_effect_witness :
  (exists e, Ok "m1" = @Raise string e /\ snd (create_match_post "m1" post_asha (Some database_asha)) = Some database_asha)
  \/ (exists b t post,
        Ok "m1" = Ok "m1" /\ Some database_asha = Some b
        /\ snd (create_match_post "m1" post_asha (Some database_asha))
           = Some (mkDatabase (team b) (matchpost b ++ [("m1", post)])%list (message b))
        /\ List.find (has_team_id (MatchCreate.team_id post_asha)) (team_collection (team b))
           = Some t
        /\ Matchpost.team_id post = MatchCreate.team_id post_asha
        /\ Matchpost.location_name post = location_name (doc t)
        /\ Matchpost.latitude post = latitude (doc t)
        /\ Matchpost.longitude post = longitude (doc t)
        /\ In (Matchpost.sport post) Sport
        /\ In (Matchpost.time_pref post) TimeSlot
        /\ (1 <= Matchpost.num_players post)%Z).
Proof.
  apply (create_match_post_effect "m1" post_asha (Some database_asha)).
  reflexivity.
Defined.

(** X18. A message is stored only when both teams exist, both have a
    contact number, and the text has between 1 and 2000 characters; it is
    appended with the fields of the payload.  The teams and the match
    posts are never touched, and a failed request stores nothing. *)
Theorem send_message_effect (oid : string) (payload : ChatCreate.t)
    (db db' : option Database) (r : outcome string) :
  send_message oid payload db = (r, db') ->
  (exists e, r = Raise e /\ db' = db)
  \/ (exists b ta tb,
        r = Ok oid /\ db = Some b
        /\ db' = Some (mkDatabase (team b) (matchpost b)
                         (message b
                          ++ [(oid, Message.mk (ChatCreate.from_team_id payload)
                                               (ChatCreate.to_team_id payload)
                                               (ChatCreate.text payload))])%list)
        /\ List.find (has_team_id (ChatCreate.from_team_id payload))
                     (team_collection (team b)) = Some ta
        /\ List.find (has_team_id (ChatCreate.to_team_id payload))
                     (team_collection (team b)) = Some tb
        /\ contact_number (doc ta) <> "" /\ contact_number (doc tb) <> ""
        /\ (1 <= String.length (ChatCreate.text payload) <= 2000)%nat).
Proof.
  unfold send_message.
  destruct (find_one_team_id_cases db (ChatCreate.from_team_id payload))
    as [[e E]|(b & -> & Hr & E)]; rewrite E.
  { intros [= <- <-]. left. exists e. split; reflexivity. }
  destruct (find_one_team_id_cases (Some b) (ChatCreate.to_team_id payload))
    as [[e E']|(b' & [= <-] & _ & E')]; rewrite E'.
  { intros [= <- <-]. left. exists e. split; reflexivity. }
  destruct (List.find (has_team_id (ChatCreate.from_team_id payload)) _) as [ta|] eqn:Ea;
    [|intros [= <- <-]; left; eexists; split; reflexivity].
  destruct (List.find (has_team_id (ChatCreate.to_team_id payload)) _) as [tb|] eqn:Eb;
    [|intros [= <- <-]; left; eexists; split; reflexivity].
  unfold str_falsy.
  destruct (String.eqb_spec (contact_number (doc ta)) "") as [Ha|Ha];
    [intros [= <- <-]; left; eexists; split; reflexivity|].
  destruct (String.eqb_spec (contact_number (doc tb)) "") as [Hb|Hb];
    [intros [= <- <-]; left; eexists; split; reflexivity|].
  cbn [orb]. unfold Message_validate. cbn [Message.text].
  destruct (1 <=? String.length (ChatCreate.text payload))%nat eqn:H1;
    [|intros [= <- <-]; left; eexists; split; reflexivity].
  destruct (String.length (ChatCreate.text payload) <=? 2000)%nat eqn:H2;
    [|intros [= <- <-]; left; eexists; split; reflexivity].
  cbn [andb]. unfold create_message_document. rewrite Hr.
  intros [= <- <-]. right. exists b, ta, tb.
  split; [reflexivity|]. split; [reflexivity|]. split; [reflexivity|].
  split; [exact Ea|]. split; [exact Eb|].
  split; [exact Ha|]. split; [exact Hb|].
  apply Nat.leb_le in H1. apply Nat.leb_le in H2. lia.
Qed.

Lemma send_message_effect_witness :
  (exists e, Ok "c1" = @Raise string e
             /\ snd (send_message "c1" chat_asha (Some database_asha)) = Some database_asha)
  \/ (exists b ta tb,
        Ok "c1" = Ok "c1" /\ Some database_asha = Some b
        /\ snd (send_message "c1" chat_asha (Some database_asha))
           = Some (mkDatabase (team b) (matchpost b)
                     (message b
                      ++ [("c1", Message.mk (ChatCreate.from_team_id chat_asha)
                                            (ChatCreate.to_team_id chat_asha)
                                            (ChatCreate.text chat_asha))])%list)
        /\ List.find (has_team_id (ChatCreate.from_team_id chat_asha))
                     (team_collection (team b)) = Some ta
        /\ List.find (has_team_id (ChatCreate.to_team_id chat_asha))
                     (team_collection (team b)) = Some tb
        /\ contact_number (doc ta) <> "" /\ contact_number (doc tb) <> ""
        /\ (1 <= String.length (ChatCreate.text chat_asha) <= 2000)%nat).
Proof.
  apply (send_message_effect "c1" chat_asha (Some database_asha)).
  reflexivity.
Defined.

Lemma create_match_post_stored (oid : string) (payload : MatchCreate.t)
    (db db' : option Database) (i : string) :
  create_match_post oid payload db = (Ok i, db') ->
  exists h h', db = Some h /\ db' = Some h'.
Proof.
  unfold create_match_post, create_matchpost_document. cbv zeta.
  destruct db as [h|]; [|cbn; discriminate].
  repeat match goal with
  | |- (Raise _, _) = (Ok _, _) -> _ => discriminate
  | |- context [match ?x with _ => _ end] => destruct x eqn:?
  | |- context [if ?x then _ else _] => destruct x eqn:?
  end.
  intros [= <- <-]. eexists _, _. split; reflexivity.
Qed.

(** X19. [admin_stats] returns counts only when [db] was never
    initialised, and then both are 0.  With the handle of the driver the
    test [if db] raises [NotImplementedError] outside any [try], whatever
    the collections hold; so the request fails before and after every
    successful registration and after every stored match post. *)
Theorem admin_stats_fails_with_handle (db : option Database) :
  (db = None -> admin_stats db = Ok (0, 0)%nat)
  /\ (forall h, db = Some h -> admin_stats db = Raise NotImplementedError)
  /\ (forall n m, admin_stats db = Ok (n, m) -> db = None /\ n = 0%nat /\ m = 0%nat)
  /\ (forall oid payload resp t',
        register_team oid payload (teams_of db) = (Ok resp, t') ->
        admin_stats db = Raise NotImplementedError
        /\ admin_stats (with_teams db t') = Raise NotImplementedError)
  /\ (forall oid payload i db',
        create_match_post oid payload db = (Ok i, db') ->
        admin_stats db = Raise NotImplementedError
        /\ admin_stats db' = Raise NotImplementedError).
Proof.
  assert (Hh : forall h, admin_stats (Some h) = Raise NotImplementedError)
    by reflexivity.
  split; [intros ->; reflexivity|].
  split; [intros h ->; apply Hh|].
  split.
  { intros n m H. destruct db as [h|]; [rewrite Hh in H; discriminate|].
    injection H as <- <-. repeat split. }
  split.
  - intros oid payload resp t' H. apply register_team_success in H.
    destruct H as (d & Hd & _ & _ & _ & _ & ->).
    destruct db as [h|]; [|discriminate]. split; apply Hh.
  - intros oid payload i db' H.
    destruct (create_match_post_stored oid payload db db' i H) as (h & h' & -> & ->).
    split; apply Hh.
Qed.

End PostsFacts.

(** ** The near-antipodal request in double precision *)

Module DoublesFacts.
Import Doubles.
Open Scope float_scope.

(** With the values of the C library at the arguments of the example,
    the quantity [a] is 1.0000000000000004, its square root
    1.0000000000000002 is outside the domain of [asin], and the call of
    [math.asin] raises. *)
Lemma far_haversine_raises (P : Platform) :
  c_sin P 0x1.04f0a18278441p+0 = 0x1.b4173b6b1f65bp-1 ->
  c_pow P 0x1.b4173b6b1f65bp-1 2 = 0x1.736f92404efe5p-1 ->
  c_cos P (-0x1.04f0a18637c54p+0) = 0x1.0c45269331479p-1 ->
  c_cos P 0x1.04f0a17eb8c2cp+0 = 0x1.0c45269ff645fp-1 ->
  c_sin P 0x1.921fb53cc3cf0p+0 = 1 ->
  is_nan (c_asin P 0x1.0000000000001p+0) = true ->
  haversine P far_center_lat far_center_lon far_team_lat far_team_lon = Raise ValueError.
Proof.
  destruct P as [fsin fcos fasin fpow fround].
  cbn [c_sin c_cos c_asin c_pow].
  intros Hs1 Hp1 Hc1 Hc2 Hs2 Ha.
  unfold haversine, math_1, float_pow_2. cbn [c_sin c_cos c_asin c_pow].
  vm_compute. rewrite Hs1.
  vm_compute. rewrite Hp1.
  vm_compute. rewrite Hc1.
  vm_compute. rewrite Hc2.
  vm_compute. rewrite Hs2.
  vm_compute. vm_compute in Ha. rewrite Ha.
  reflexivity.
Qed.

(** C2 (the code departs from the claim).  A centre at
    (-58.4014011, -130.5866279) and one team stored with both coordinates,
    (58.4014010, 49.4133719), about 20015 km away.  In double precision
    [haversine] raises [ValueError], the handler of the loop appends the
    team, and the response is that team, without [distance_km], for
    every radius: a located team is returned although its distance is
    not within the radius. *)
Theorem C2_far_team_returned (P : Platform) (A : Type) (rest : A) (range_km : float) :
  c_sin P 0x1.04f0a18278441p+0 = 0x1.b4173b6b1f65bp-1 ->
  c_pow P 0x1.b4173b6b1f65bp-1 2 = 0x1.736f92404efe5p-1 ->
  c_cos P (-0x1.04f0a18637c54p+0) = 0x1.0c45269331479p-1 ->
  c_cos P 0x1.04f0a17eb8c2cp+0 = 0x1.0c45269ff645fp-1 ->
  c_sin P 0x1.921fb53cc3cf0p+0 = 1 ->
  is_nan (c_asin P 0x1.0000000000001p+0) = true ->
  haversine P far_center_lat far_center_lon far_team_lat far_team_lon = Raise ValueError
  /\ proximity_engine P [far_team rest] (Some far_center_lat) (Some far_center_lon) range_km
     = [mkFItem "far" (Some far_team_lat) (Some far_team_lon) rest None].
Proof.
  intros Hs1 Hp1 Hc1 Hc2 Hs2 Ha.
  pose proof (far_haversine_raises P Hs1 Hp1 Hc1 Hc2 Hs2 Ha) as Hr.
  split; [exact Hr|].
  unfold proximity_engine. cbv zeta. cbn [fold_left].
  unfold nearby_step. cbv zeta.
  cbn [far_team stringify_id fitem_latitude fitem_longitude fdoc_latitude fdoc_longitude].
  rewrite Hr. reflexivity.
Qed.

Lemma C2_far_team_returned_witness :
  haversine sample_platform far_center_lat far_center_lon far_team_lat far_team_lon
  = Raise ValueError
  /\ proximity_engine sample_platform [far_team tt]
       (Some far_center_lat) (Some far_center_lon) 10
     = [mkFItem "far" (Some far_team_lat) (Some far_team_lon) tt None].
Proof.
  apply (C2_far_team_returned sample_platform unit tt 10); vm_compute; reflexivity.
Defined.

End DoublesFacts.
